(** * Enpal sensor platform

    A shallow embedding of [custom_components/enpal/sensor.py]: the static
    field table [FIELD_MAP], the setup-time discovery [async_setup_entry]
    and the poll-time updater [EnpalSensor.async_update], followed by the
    properties of the specification that are settled against them.

    Python objects that the code mutates (the entity, the attribute dict,
    the configuration dict held in [hass.data], the entity registry) are
    threaded through a state-and-exception monad; everything the code
    obtains from outside (the InfluxDB answer, the wall clock) is an
    explicit input. *)

From Stdlib Require Import ZArith Lia Bool.
From Stdlib Require Import Floats.SpecFloat.
From stdpp Require Import gmap strings list pretty.

Local Open Scope Z_scope.

(** ** Python builtins used by the module *)

Module Py.

(** Exception classes.  [except Exception] catches the subclasses of
    [Exception]; [CancelledError], [KeyboardInterrupt] and [SystemExit]
    derive from [BaseException] only.  [OtherException] stands for any
    further subclass of [Exception] (the InfluxDB client's [ApiException],
    urllib3's connection errors, ...). *)
Inductive exn_class :=
| KeyError
| IndexError
| TypeError
| ValueError
| OverflowError
| OtherException
| CancelledError
| KeyboardInterrupt
| SystemExit.

(** An exception object: its class and [str(e)]. *)
Record exn := Exn { exn_cls : exn_class; exn_str : string }.

Definition is_Exception (c : exn_class) : bool :=
  match c with
  | CancelledError | KeyboardInterrupt | SystemExit => false
  | _ => true
  end.

Inductive result (A : Type) :=
| Ok (a : A)
| Raise (e : exn).
Arguments Ok {A} a.
Arguments Raise {A} e.

(** [datetime.datetime], naive (no tzinfo), as the module uses it. *)
Record datetime := Datetime {
  year : Z; month : Z; day : Z;
  hour : Z; minute : Z; second : Z; microsecond : Z
}.

(** [d.replace(hour=0, minute=0, second=0, microsecond=0)] *)
Definition replace_midnight (d : datetime) : datetime :=
  {| year := year d; month := month d; day := day d;
     hour := 0; minute := 0; second := 0; microsecond := 0 |}.

(** *** [float]: IEEE 754 binary64 *)

Definition prec : Z := 53.
Definition emax : Z := 1024.

Abbreviation float := spec_float.

(** The double nearest to the integer [z] (ties to even). *)
Definition float_of_Z (z : Z) : float := binary_normalize prec emax z 0 false.

(** The double nearest to the fraction [n / d] (ties to even), which is
    what the parser of a decimal literal returns. *)
Definition float_of_frac (s : bool) (n d : positive) : float :=
  SFdiv prec emax (S754_finite s n 0) (S754_finite false d 0).

(** The values a sample's [_value] can hold.  [PObject r] is any other
    object ([str], [bytes], [datetime], ...), described by what [float()]
    does when applied to it. *)
Inductive pyval :=
| PFloat (f : float)
| PInt (z : Z)
| PBool (b : bool)
| PNone
| PObject (float_outcome : result float).

(** [float(v)] *)
Definition py_float (v : pyval) : result float :=
  match v with
  | PFloat f => Ok f
  | PInt z =>
      match float_of_Z z with
      | S754_infinity _ => Raise (Exn OverflowError "int too large to convert to float")
      | f => Ok f
      end
  | PBool b => Ok (float_of_Z (if b then 1 else 0))
  | PNone => Raise (Exn TypeError "float() argument must be a string or a real number, not 'NoneType'")
  | PObject r => r
  end.

(** Integer nearest to [a / b] for [b > 0], ties to the even one. *)
Definition div_half_even (a b : Z) : Z :=
  let q := a / b in
  match 2 * (a mod b) ?= b with
  | Lt => q
  | Gt => q + 1
  | Eq => if Z.even q then q else q + 1
  end.

(** Integer nearest to [100 * m * 2^e], ties to even. *)
Definition hundredths (m : positive) (e : Z) : Z :=
  match e with
  | Zneg p => div_half_even (100 * Zpos m) (2 ^ Zpos p)
  | _ => 100 * Zpos m * 2 ^ e
  end.

(** [round(x, 2)] on a float: the exact value of [x] is rounded to two
    decimals (ties to even) and the decimal is read back as the nearest
    double; zeros, infinities and NaN round to themselves, and a value
    that rounds to zero keeps its sign. *)
Definition py_round2 (x : float) : float :=
  match x with
  | S754_finite s m e =>
      match hundredths m e with
      | Zpos n => float_of_frac s n 100
      | _ => S754_zero s
      end
  | _ => x
  end.

(** Comparisons of a float with another number; all are [False] on NaN. *)
Definition py_ge (a b : float) : bool := SFleb b a.
Definition py_le (a b : float) : bool := SFleb a b.
Definition py_eq (a b : float) : bool := SFeqb a b.

(** *** State and exceptions

    A computation over a mutable store [S]: it returns or raises, and in
    both cases leaves the store as mutated so far. *)
Definition M (S A : Type) : Type := S -> result A * S.

Definition ret {S A} (a : A) : M S A := fun s => (Ok a, s).

Definition bind {S A B} (c : M S A) (k : A -> M S B) : M S B :=
  fun s =>
    match c s with
    | (Ok a, s') => k a s'
    | (Raise e, s') => (Raise e, s')
    end.

Definition raise {S A} (e : exn) : M S A := fun s => (Raise e, s).

Definition lift {S A} (r : result A) : M S A := fun s => (r, s).

Definition get {S} : M S S := fun s => (Ok s, s).

Definition modify {S} (f : S -> S) : M S unit := fun s => (Ok tt, f s).

(** [if c: body] *)
Definition when {S} (c : bool) (body : M S unit) : M S unit :=
  if c then body else ret tt.

(** [try: body / except Exception as e: handler e] *)
Definition try_except_Exception {S A} (body : M S A) (handler : exn -> M S A) : M S A :=
  fun s =>
    match body s with
    | (Raise e, s') =>
        if is_Exception (exn_cls e) then handler e s' else (Raise e, s')
    | r => r
    end.

(** [l[0]] *)
Definition index0 {A} (l : list A) : result A :=
  match l with
  | x :: _ => Ok x
  | [] => Raise (Exn IndexError "list index out of range")
  end.

(** [repr(k)] of a string key without quotes, backslashes or characters
    that [repr] escapes: the key between single quotes.  It is what
    [str(KeyError(k))] gives. *)
Definition repr_str (k : string) : string := "'" +:+ k +:+ "'".

(** [d[k]] where the lookup gave [o] *)
Definition getitem {A} (k : string) (o : option A) : result A :=
  match o with
  | Some a => Ok a
  | None => Raise (Exn KeyError (repr_str k))
  end.

End Py.

Import Py.

Notation "x <- c ;; k" := (bind c (fun x => k))
  (at level 100, c at next level, right associativity, only parsing).
Notation "c ;;; k" := (bind c (fun _ => k))
  (at level 100, right associativity, only parsing).

(** ** The static field table *)

Record EnpalSensorConfig := {
  icon : string;
  name : string;
  device_class : string;
  unit_ : string
}.

Definition FIELD_MAP : gmap string EnpalSensorConfig :=
  list_to_map [
    ("Power.DC.Total", Build_EnpalSensorConfig "mdi:solar-power" "Enpal Solar Production Power" "power" "W");
    ("Power.House.Total", Build_EnpalSensorConfig "mdi:home-lightning-bolt" "Enpal Power House Total" "power" "W");
    ("Power.External.Total", Build_EnpalSensorConfig "mdi:home-lightning-bolt" "Enpal Power External Total" "power" "W");
    ("Energy.Consumption.Total.Day", Build_EnpalSensorConfig "mdi:home-lightning-bolt" "Enpal Energy Consumption" "energy" "kWh");

    ("Energy.External.Total.Out.Day", Build_EnpalSensorConfig "mdi:transmission-tower-export" "Enpal Energy External Out Day" "energy" "kWh");
    ("Energy.External.Total.In.Day", Build_EnpalSensorConfig "mdi:transmission-tower-import" "Enpal Energy External In Day" "energy" "kWh");

    ("Energy.Production.Total.Day", Build_EnpalSensorConfig "mdi:solar-power-variant" "Enpal Production Day" "energy" "kWh");

    ("Voltage.Phase.A", Build_EnpalSensorConfig "mdi:lightning-bolt" "Enpal Voltage Phase A" "voltage" "V");
    ("Current.Phase.A", Build_EnpalSensorConfig "mdi:lightning-bolt" "Enpal Ampere Phase A" "current" "A");
    ("Power.AC.Phase.A", Build_EnpalSensorConfig "mdi:lightning-bolt" "Enpal Power Phase A" "power" "W");
    ("Voltage.Phase.B", Build_EnpalSensorConfig "mdi:lightning-bolt" "Enpal Voltage Phase B" "voltage" "V");
    ("Current.Phase.B", Build_EnpalSensorConfig "mdi:lightning-bolt" "Enpal Ampere Phase B" "current" "A");
    ("Power.AC.Phase.B", Build_EnpalSensorConfig "mdi:lightning-bolt" "Enpal Power Phase B" "power" "W");
    ("Voltage.Phase.C", Build_EnpalSensorConfig "mdi:lightning-bolt" "Enpal Voltage Phase C" "voltage" "V");
    ("Current.Phase.C", Build_EnpalSensorConfig "mdi:lightning-bolt" "Enpal Ampere Phase C" "current" "A");
    ("Power.AC.Phase.C", Build_EnpalSensorConfig "mdi:lightning-bolt" "Enpal Power Phase C" "power" "W");

    ("Current.String.1", Build_EnpalSensorConfig "mdi:sun-angle" "Enpal Current String 1" "current" "A");
    ("Voltage.String.1", Build_EnpalSensorConfig "mdi:sun-angle" "Enpal Voltage String 1" "voltage" "V");
    ("Power.DC.String.1", Build_EnpalSensorConfig "mdi:sun-angle" "Enpal Power String 1" "power" "W");
    ("Current.String.2", Build_EnpalSensorConfig "mdi:sun-angle" "Enpal Current String 2" "current" "A");
    ("Voltage.String.2", Build_EnpalSensorConfig "mdi:sun-angle" "Enpal Voltage String 2" "voltage" "V");
    ("Power.DC.String.2", Build_EnpalSensorConfig "mdi:sun-angle" "Enpal Power String 2" "power" "W");

    ("Power.Battery.Charge.Discharge", Build_EnpalSensorConfig "mdi:battery-charging" "Enpal Battery Power" "power" "W");
    ("Energy.Battery.Charge.Level", Build_EnpalSensorConfig "mdi:battery" "Enpal Battery Percent" "battery" "%");
    ("Energy.Battery.Charge.Day", Build_EnpalSensorConfig "mdi:battery-arrow-up" "Enpal Battery Charge Day" "energy" "kWh");
    ("Energy.Battery.Discharge.Day", Build_EnpalSensorConfig "mdi:battery-arrow-down" "Enpal Battery Discharge Day" "energy" "kWh");
    ("Energy.Battery.Charge.Total.Unit.1", Build_EnpalSensorConfig "mdi:battery-arrow-up" "Enpal Battery Charge Total" "energy" "kWh");
    ("Energy.Battery.Discharge.Total.Unit.1", Build_EnpalSensorConfig "mdi:battery-arrow-down" "Enpal Battery Discharge Total" "energy" "kWh");

    ("State.Wallbox.Connector.1.Charge", Build_EnpalSensorConfig "mdi:ev-station" "Wallbox Charge Percent" "battery" "%");
    ("Power.Wallbox.Connector.1.Charging", Build_EnpalSensorConfig "mdi:ev-station" "Wallbox Charging Power" "power" "W");
    ("Energy.Wallbox.Connector.1.Charged.Total", Build_EnpalSensorConfig "mdi:ev-station" "Wallbox Charging Total" "energy" "Wh")
  ].

(** ** The InfluxDB client, as the module sees it *)

(** A configuration value ([str] host and token, [int] port). *)
Inductive conf_value :=
| CStr (s : string)
| CInt (z : Z).

(** [record.values]: the tag columns [_field] and [_measurement] hold
    strings, [_value] holds the sample; [None] is a missing key. *)
Record FluxRecord := {
  values_field : option string;
  values_measurement : option string;
  values_value : option pyval
}.

Record FluxTable := { records : list FluxRecord }.

(** The two Flux queries of the module, both over bucket "solar" and
    [range(start: -5m)], both ending in [last()]; the updater's one filters
    on [_measurement] and [_field]. *)
Inductive Query :=
| QueryLast
| QueryLastOf (measurement field : string).

(** What constructing a client for [http://{ip}:{port}] with [token] and
    running a query gives: the tables, or the exception raised on the way
    (by the client, or by the awaited executor job when it is cancelled). *)
Definition Influx : Type :=
  conf_value -> conf_value -> conf_value -> Query -> result (list FluxTable).

(** ** The entity *)

Inductive attr_value :=
| AttrStr (s : string)
| AttrDatetime (d : datetime).

(** [sensor_unit] is the attribute [unit] of the source; attributes the
    base class leaves at [None] until they are assigned are options. *)
Record EnpalSensor := {
  field : string;
  measurement : string;
  ip : conf_value;
  port : conf_value;
  token : conf_value;
  enpal_device_class : string;
  sensor_unit : string;
  _attr_icon : string;
  _attr_name : string;
  _attr_unique_id : string;
  _attr_extra_state_attributes : gmap string attr_value;
  _attr_native_value : option float;
  _attr_device_class : option string;
  _attr_native_unit_of_measurement : option string;
  _attr_state_class : option string;
  _state : option string
}.

(** [EnpalSensor.__init__] *)
Definition EnpalSensor_init (field measurement icon name : string)
    (ip port token : conf_value) (device_class unit : string) : EnpalSensor :=
  {| field := field;
     measurement := measurement;
     ip := ip;
     port := port;
     token := token;
     enpal_device_class := device_class;
     sensor_unit := unit;
     _attr_icon := icon;
     _attr_name := name;
     _attr_unique_id := "enpal_" +:+ measurement +:+ "_" +:+ field;
     _attr_extra_state_attributes := ∅;
     _attr_native_value := None;
     _attr_device_class := None;
     _attr_native_unit_of_measurement := None;
     _attr_state_class := None;
     _state := None |}.

(** Attribute assignments [self.x = v]. *)
Definition set_icon (v : string) (s : EnpalSensor) : EnpalSensor :=
  {| field := field s; measurement := measurement s; ip := ip s; port := port s;
     token := token s; enpal_device_class := enpal_device_class s;
     sensor_unit := sensor_unit s; _attr_icon := v; _attr_name := _attr_name s;
     _attr_unique_id := _attr_unique_id s;
     _attr_extra_state_attributes := _attr_extra_state_attributes s;
     _attr_native_value := _attr_native_value s;
     _attr_device_class := _attr_device_class s;
     _attr_native_unit_of_measurement := _attr_native_unit_of_measurement s;
     _attr_state_class := _attr_state_class s; _state := _state s |}.

Definition set_extra_state_attributes (v : gmap string attr_value) (s : EnpalSensor) : EnpalSensor :=
  {| field := field s; measurement := measurement s; ip := ip s; port := port s;
     token := token s; enpal_device_class := enpal_device_class s;
     sensor_unit := sensor_unit s; _attr_icon := _attr_icon s; _attr_name := _attr_name s;
     _attr_unique_id := _attr_unique_id s;
     _attr_extra_state_attributes := v;
     _attr_native_value := _attr_native_value s;
     _attr_device_class := _attr_device_class s;
     _attr_native_unit_of_measurement := _attr_native_unit_of_measurement s;
     _attr_state_class := _attr_state_class s; _state := _state s |}.

Definition set_native_value (v : option float) (s : EnpalSensor) : EnpalSensor :=
  {| field := field s; measurement := measurement s; ip := ip s; port := port s;
     token := token s; enpal_device_class := enpal_device_class s;
     sensor_unit := sensor_unit s; _attr_icon := _attr_icon s; _attr_name := _attr_name s;
     _attr_unique_id := _attr_unique_id s;
     _attr_extra_state_attributes := _attr_extra_state_attributes s;
     _attr_native_value := v;
     _attr_device_class := _attr_device_class s;
     _attr_native_unit_of_measurement := _attr_native_unit_of_measurement s;
     _attr_state_class := _attr_state_class s; _state := _state s |}.

Definition set_device_class (v : option string) (s : EnpalSensor) : EnpalSensor :=
  {| field := field s; measurement := measurement s; ip := ip s; port := port s;
     token := token s; enpal_device_class := enpal_device_class s;
     sensor_unit := sensor_unit s; _attr_icon := _attr_icon s; _attr_name := _attr_name s;
     _attr_unique_id := _attr_unique_id s;
     _attr_extra_state_attributes := _attr_extra_state_attributes s;
     _attr_native_value := _attr_native_value s;
     _attr_device_class := v;
     _attr_native_unit_of_measurement := _attr_native_unit_of_measurement s;
     _attr_state_class := _attr_state_class s; _state := _state s |}.

Definition set_native_unit_of_measurement (v : option string) (s : EnpalSensor) : EnpalSensor :=
  {| field := field s; measurement := measurement s; ip := ip s; port := port s;
     token := token s; enpal_device_class := enpal_device_class s;
     sensor_unit := sensor_unit s; _attr_icon := _attr_icon s; _attr_name := _attr_name s;
     _attr_unique_id := _attr_unique_id s;
     _attr_extra_state_attributes := _attr_extra_state_attributes s;
     _attr_native_value := _attr_native_value s;
     _attr_device_class := _attr_device_class s;
     _attr_native_unit_of_measurement := v;
     _attr_state_class := _attr_state_class s; _state := _state s |}.

Definition set_state_class (v : option string) (s : EnpalSensor) : EnpalSensor :=
  {| field := field s; measurement := measurement s; ip := ip s; port := port s;
     token := token s; enpal_device_class := enpal_device_class s;
     sensor_unit := sensor_unit s; _attr_icon := _attr_icon s; _attr_name := _attr_name s;
     _attr_unique_id := _attr_unique_id s;
     _attr_extra_state_attributes := _attr_extra_state_attributes s;
     _attr_native_value := _attr_native_value s;
     _attr_device_class := _attr_device_class s;
     _attr_native_unit_of_measurement := _attr_native_unit_of_measurement s;
     _attr_state_class := v; _state := _state s |}.

Definition set_state (v : option string) (s : EnpalSensor) : EnpalSensor :=
  {| field := field s; measurement := measurement s; ip := ip s; port := port s;
     token := token s; enpal_device_class := enpal_device_class s;
     sensor_unit := sensor_unit s; _attr_icon := _attr_icon s; _attr_name := _attr_name s;
     _attr_unique_id := _attr_unique_id s;
     _attr_extra_state_attributes := _attr_extra_state_attributes s;
     _attr_native_value := _attr_native_value s;
     _attr_device_class := _attr_device_class s;
     _attr_native_unit_of_measurement := _attr_native_unit_of_measurement s;
     _attr_state_class := _attr_state_class s; _state := v |}.

(** ** What the module does to the outside, in order *)

Inductive log_level := DEBUG | ERROR.

Inductive Event :=
| EvLog (level : log_level) (msg : string)
| EvQuery (ip port token : conf_value) (q : Query)
| EvRemove (entity_id : string)
| EvAddEntities (new_entities : list EnpalSensor) (update_before_add : bool).

(** ** The entity updater *)

(** The store of one [async_update] call: the entity and the events
    emitted so far. *)
Record UpdState := { self : EnpalSensor; emitted : list Event }.

(** The outside of one call: the database, and the readings of
    [datetime.now()] and [datetime.utcnow()] (each is read at most once on
    any path through the method). *)
Record UpdEnv := { influx : Influx; now : datetime; utcnow : datetime }.

Definition emit (ev : Event) : M UpdState unit :=
  modify (fun st => {| self := self st; emitted := emitted st ++ [ev] |}).

(** [self.x] *)
Definition read {A} (proj : EnpalSensor -> A) : M UpdState A :=
  st <- get ;; ret (proj (self st)).

(** [self.x = v] *)
Definition assign (upd : EnpalSensor -> EnpalSensor) : M UpdState unit :=
  modify (fun st => {| self := upd (self st); emitted := emitted st |}).

(** [self._attr_extra_state_attributes[k] = v] *)
Definition attr_setitem (k : string) (v : attr_value) : M UpdState unit :=
  attrs <- read _attr_extra_state_attributes ;;
  assign (set_extra_state_attributes (<[k := v]> attrs)).

(** [self._attr_native_value] read as an operand of a comparison with a
    number, which [None] does not support. *)
Definition native_value_operand : M UpdState float :=
  v <- read _attr_native_value ;;
  match v with
  | Some f => ret f
  | None => raise (Exn TypeError "'>=' not supported between instances of 'NoneType' and 'int'")
  end.

(** [if self._attr_native_value <= hi and self._attr_native_value >= lo:
        self._attr_icon = icon] *)
Definition icon_tier (hi lo : Z) (icon : string) : M UpdState unit :=
  v <- native_value_operand ;;
  when (py_le v (float_of_Z hi) && py_ge v (float_of_Z lo))
       (assign (set_icon icon)).

(** The block under [if self.field == 'Percent.Storage.Level':]. *)
Definition select_battery_icon : M UpdState unit :=
  v <- native_value_operand ;;
  when (py_ge v (float_of_Z 10)) (assign (set_icon "mdi:battery-outline")) ;;;
  icon_tier 19 10 "mdi:battery-10" ;;;
  icon_tier 29 20 "mdi:battery-20" ;;;
  icon_tier 39 30 "mdi:battery-30" ;;;
  icon_tier 49 40 "mdi:battery-40" ;;;
  icon_tier 59 50 "mdi:battery-50" ;;;
  icon_tier 69 60 "mdi:battery-60" ;;;
  icon_tier 79 70 "mdi:battery-70" ;;;
  icon_tier 89 80 "mdi:battery-80" ;;;
  icon_tier 99 90 "mdi:battery-90" ;;;
  v <- native_value_operand ;;
  when (py_eq v (float_of_Z 100)) (assign (set_icon "mdi:battery")).

(** The block under [if self._attr_native_unit_of_measurement == ...:],
    the same for "kWh" and for "Wh". *)
Definition mark_total_increasing (env : UpdEnv) : M UpdState unit :=
  attr_setitem "last_reset" (AttrDatetime (replace_midnight (utcnow env))) ;;;
  assign (set_state_class (Some "total_increasing")).

(** The body of the [try] block. *)
Definition update_try (env : UpdEnv) : M UpdState unit :=
  ip_ <- read ip ;; port_ <- read port ;; token_ <- read token ;;
  measurement_ <- read measurement ;; field_ <- read field ;;
  let query := QueryLastOf measurement_ field_ in
  emit (EvQuery ip_ port_ token_ query) ;;;
  tables <- lift (influx env ip_ port_ token_ query) ;;
  value <- lift (match tables with
                 | [] => Ok (PInt 0)
                 | table :: _ =>
                     match index0 (records table) with
                     | Ok r => getitem "_value" (values_value r)
                     | Raise e => Raise e
                     end
                 end) ;;
  f <- lift (py_float value) ;;
  assign (set_native_value (Some (py_round2 f))) ;;;
  dc <- read enpal_device_class ;; assign (set_device_class (Some dc)) ;;;
  u <- read sensor_unit ;; assign (set_native_unit_of_measurement (Some u)) ;;;
  assign (set_state_class (Some "measurement")) ;;;
  attr_setitem "last_check" (AttrDatetime (now env)) ;;;
  field_ <- read field ;; attr_setitem "field" (AttrStr field_) ;;;
  measurement_ <- read measurement ;; attr_setitem "measurement" (AttrStr measurement_) ;;;
  u <- read _attr_native_unit_of_measurement ;;
  when (bool_decide (u = Some "kWh")) (mark_total_increasing env) ;;;
  u <- read _attr_native_unit_of_measurement ;;
  when (bool_decide (u = Some "Wh")) (mark_total_increasing env) ;;;
  field_ <- read field ;;
  when (bool_decide (field_ = "Percent.Storage.Level")) select_battery_icon.

(** The [except Exception as e] handler. *)
Definition update_except (env : UpdEnv) (e : exn) : M UpdState unit :=
  emit (EvLog ERROR (exn_str e)) ;;;
  assign (set_state (Some "Error")) ;;;
  assign (set_native_value None) ;;;
  attr_setitem "last_check" (AttrDatetime (now env)).

(** [EnpalSensor.async_update] *)
Definition async_update (env : UpdEnv) : M UpdState unit :=
  try_except_Exception (update_try env) (update_except env).

(** One call on entity [s]: the outcome, the entity afterwards and the
    events of the call. *)
Definition run_update (env : UpdEnv) (s : EnpalSensor) : result unit * UpdState :=
  async_update env {| self := s; emitted := [] |}.

(** ** Field discovery *)

(** An entry of the host's entity registry, which is keyed by entity id. *)
Record RegistryEntry := {
  config_entry_id : string;
  unique_id : string
}.

(** [hass], as far as the module touches it: [hass.data[DOMAIN]] maps an
    entry id to its configuration dict, and the entity registry. *)
Record HomeAssistant := {
  data : gmap string (gmap string conf_value);
  entity_registry : gmap string RegistryEntry
}.

Record ConfigEntry := {
  entry_id : string;
  options : gmap string conf_value
}.

(** The store of one discovery run. *)
Record World := { hass : HomeAssistant; trace : list Event }.

Definition tell (ev : Event) : M World unit :=
  modify (fun w => {| hass := hass w; trace := trace w ++ [ev] |}).

Definition set_data (d : gmap string (gmap string conf_value)) : M World unit :=
  modify (fun w => {| hass := {| data := d; entity_registry := entity_registry (hass w) |};
                      trace := trace w |}).

Definition set_entity_registry (r : gmap string RegistryEntry) : M World unit :=
  modify (fun w => {| hass := {| data := data (hass w); entity_registry := r |};
                      trace := trace w |}).

(** [get_tables], run through [hass.async_add_executor_job]. *)
Definition get_tables (db : Influx) (ip port token : conf_value) : M World (list FluxTable) :=
  tell (EvQuery ip port token QueryLast) ;;;
  lift (db ip port token QueryLast).

(** [async_entries_for_config_entry(entity_registry, entry_id)]: the
    entries of the registry that belong to the configuration entry, each
    with its entity id.  The registry yields them in the order they were
    registered; the map has no such order, so the list, and with it the
    order among the removals, is in the order of the map's keys.  Which
    entries are listed does not depend on it. *)
Definition async_entries_for_config_entry (reg : gmap string RegistryEntry) (id : string)
    : list (string * RegistryEntry) :=
  filter (fun e => config_entry_id e.2 = id) (map_to_list reg).

(** [entity_registry.async_remove(entity_id)] *)
Definition async_remove (entity_id : string) : M World unit :=
  w <- get ;;
  let reg := entity_registry (hass w) in
  match reg !! entity_id with
  | Some _ =>
      tell (EvRemove entity_id) ;;;
      set_entity_registry (delete entity_id reg)
  | None => raise (Exn KeyError (repr_str entity_id))
  end.

(** [for x in l: body x] *)
Fixpoint for_each {S A} (l : list A) (body : A -> M S unit) : M S unit :=
  match l with
  | [] => ret tt
  | x :: rest => body x ;;; for_each rest body
  end.

(** The loop over the tables, started with the locals [encountered_fields]
    and [to_add]; it returns the final [to_add]. *)
Fixpoint discover (config : gmap string conf_value) (tables : list FluxTable)
    (encountered_fields : gset string) (to_add : list EnpalSensor)
    : M World (list EnpalSensor) :=
  match tables with
  | [] => ret to_add
  | table :: rest =>
      r <- lift (index0 (records table)) ;;
      field <- lift (getitem "_field" (values_field r)) ;;
      r <- lift (index0 (records table)) ;;
      measurement <- lift (getitem "_measurement" (values_measurement r)) ;;
      if decide (field ∈ encountered_fields) then
        discover config rest encountered_fields to_add
      else
        let encountered_fields := encountered_fields ∪ {[field]} in
        match FIELD_MAP !! field with
        | None =>
            tell (EvLog DEBUG ("Encountered field " +:+ field +:+
                               " without config. This is normal. Skipping")) ;;;
            discover config rest encountered_fields to_add
        | Some field_config =>
            ip <- lift (getitem "enpal_host_ip" (config !! "enpal_host_ip")) ;;
            port <- lift (getitem "enpal_host_port" (config !! "enpal_host_port")) ;;
            token <- lift (getitem "enpal_token" (config !! "enpal_token")) ;;
            let to_add :=
              to_add ++ [EnpalSensor_init field measurement (icon field_config)
                           (name field_config) ip port token
                           (device_class field_config) (unit_ field_config)] in
            discover config rest (encountered_fields ∪ {[field]}) to_add
        end
  end.

(** [async_setup_entry(hass, config_entry, async_add_entities)] *)
Definition async_setup_entry (db : Influx) (config_entry : ConfigEntry) : M World unit :=
  w <- get ;;
  config <- lift (getitem (entry_id config_entry)
                          (data (hass w) !! entry_id config_entry)) ;;
  config <- (if bool_decide (options config_entry ≠ ∅) then
               let updated := options config_entry ∪ config in
               set_data (<[entry_id config_entry := updated]> (data (hass w))) ;;;
               ret updated
             else ret config) ;;
  if bool_decide (config !! "enpal_host_ip" = None) then
    tell (EvLog ERROR "No enpal_host_ip in config entry")
  else if bool_decide (config !! "enpal_host_port" = None) then
    tell (EvLog ERROR "No enpal_host_port in config entry")
  else if bool_decide (config !! "enpal_token" = None) then
    tell (EvLog ERROR "No enpal_token in config entry")
  else
    ip <- lift (getitem "enpal_host_ip" (config !! "enpal_host_ip")) ;;
    port <- lift (getitem "enpal_host_port" (config !! "enpal_host_port")) ;;
    token <- lift (getitem "enpal_token" (config !! "enpal_token")) ;;
    tables <- get_tables db ip port token ;;
    to_add <- discover config tables ∅ [] ;;
    w <- get ;;
    let entries := async_entries_for_config_entry (entity_registry (hass w))
                                                  (entry_id config_entry) in
    for_each entries (fun entry => async_remove entry.1) ;;;
    tell (EvAddEntities to_add true).

(** One discovery run on [h]: the outcome, [hass] afterwards and the
    events of the run. *)
Definition run_setup (db : Influx) (h : HomeAssistant) (config_entry : ConfigEntry)
    : result unit * World :=
  async_setup_entry db config_entry {| hass := h; trace := [] |}.

(** * Auxiliary definitions for the properties *)

(** ** The updater in closed form *)

Definition start (s : EnpalSensor) : UpdState := {| self := s; emitted := [] |}.

(** The query the updater issues. *)
Definition update_query (s : EnpalSensor) : Query :=
  QueryLastOf (measurement s) (field s).

(** The value the updater converts: what [float(value)] gives after the
    query, or the first exception on the way. *)
Definition polled (env : UpdEnv) (s : EnpalSensor) : result float :=
  match influx env (ip s) (port s) (token s) (update_query s) with
  | Raise e => Raise e
  | Ok [] => py_float (PInt 0)
  | Ok (table :: _) =>
      match records table with
      | [] => Raise (Exn IndexError "list index out of range")
      | r :: _ =>
          match values_value r with
          | None => Raise (Exn KeyError (repr_str "_value"))
          | Some v => py_float v
          end
      end
  end.

Definition attr_put (k : string) (v : attr_value) (s : EnpalSensor) : EnpalSensor :=
  set_extra_state_attributes (<[k := v]> (_attr_extra_state_attributes s)) s.

Definition tier (hi lo : Z) (icon : string) (v : float) (s : EnpalSensor) : EnpalSensor :=
  if py_le v (float_of_Z hi) && py_ge v (float_of_Z lo) then set_icon icon s else s.

Definition battery_icons (v : float) (s : EnpalSensor) : EnpalSensor :=
  let s := if py_ge v (float_of_Z 10) then set_icon "mdi:battery-outline" s else s in
  let s := tier 19 10 "mdi:battery-10" v s in
  let s := tier 29 20 "mdi:battery-20" v s in
  let s := tier 39 30 "mdi:battery-30" v s in
  let s := tier 49 40 "mdi:battery-40" v s in
  let s := tier 59 50 "mdi:battery-50" v s in
  let s := tier 69 60 "mdi:battery-60" v s in
  let s := tier 79 70 "mdi:battery-70" v s in
  let s := tier 89 80 "mdi:battery-80" v s in
  let s := tier 99 90 "mdi:battery-90" v s in
  if py_eq v (float_of_Z 100) then set_icon "mdi:battery" s else s.

Definition reset_daily (env : UpdEnv) (u : string) (s : EnpalSensor) : EnpalSensor :=
  if bool_decide (_attr_native_unit_of_measurement s = Some u) then
    set_state_class (Some "total_increasing")
      (attr_put "last_reset" (AttrDatetime (replace_midnight (utcnow env))) s)
  else s.

(** The entity after a [try] block that ran to its end with [f] converted. *)
Definition succeeded (env : UpdEnv) (f : float) (s : EnpalSensor) : EnpalSensor :=
  let s := set_native_value (Some (py_round2 f)) s in
  let s := set_device_class (Some (enpal_device_class s)) s in
  let s := set_native_unit_of_measurement (Some (sensor_unit s)) s in
  let s := set_state_class (Some "measurement") s in
  let s := attr_put "last_check" (AttrDatetime (now env)) s in
  let s := attr_put "field" (AttrStr (field s)) s in
  let s := attr_put "measurement" (AttrStr (measurement s)) s in
  let s := reset_daily env "kWh" s in
  let s := reset_daily env "Wh" s in
  if bool_decide (field s = "Percent.Storage.Level") then battery_icons (py_round2 f) s else s.

(** The entity after the handler. *)
Definition failed (env : UpdEnv) (s : EnpalSensor) : EnpalSensor :=
  attr_put "last_check" (AttrDatetime (now env))
    (set_native_value None (set_state (Some "Error") s)).

(** The entity after a series of polls, one environment per tick. *)
Definition polls (envs : list UpdEnv) (s : EnpalSensor) : EnpalSensor :=
  foldl (fun s env => self (run_update env s).2) s envs.

(** The name of the icon of the 10%-wide tier that starts at [10 * k]. *)
Definition tier_icon (k : Z) : string := "mdi:battery-" +:+ pretty (10 * k).

Definition is_midnight_of (d day_of : datetime) : Prop :=
  year d = year day_of /\ month d = month day_of /\ day d = day day_of /\
  hour d = 0 /\ minute d = 0 /\ second d = 0 /\ microsecond d = 0.

(** ** Discovery *)

(** The measurement of the first result, in query order, whose field name
    is [f]. *)
Fixpoint first_measurement (f : string) (tables : list FluxTable) : option string :=
  match tables with
  | [] => None
  | table :: rest =>
      match records table with
      | r :: _ =>
          if decide (values_field r = Some f) then values_measurement r
          else first_measurement f rest
      | [] => first_measurement f rest
      end
  end.

(** The entity [discover] builds for field [f] seen under measurement [m]. *)
Definition entity_for (config : gmap string conf_value) (f m : string)
    (cfg : EnpalSensorConfig) : option EnpalSensor :=
  ip ← config !! "enpal_host_ip";
  port ← config !! "enpal_host_port";
  token ← config !! "enpal_token";
  Some (EnpalSensor_init f m (icon cfg) (name cfg) ip port token
          (device_class cfg) (unit_ cfg)).

(** The configuration bag of an entry: its options merged on top of the
    stored configuration. *)
Definition merged_config (h : HomeAssistant) (config_entry : ConfigEntry)
    : option (gmap string conf_value) :=
  config ← data h !! entry_id config_entry;
  Some (options config_entry ∪ config).

Definition is_query (ev : Event) : bool :=
  match ev with EvQuery _ _ _ _ => true | _ => false end.
Definition is_remove (ev : Event) : bool :=
  match ev with EvRemove _ => true | _ => false end.
Definition is_add (ev : Event) : bool :=
  match ev with EvAddEntities _ _ => true | _ => false end.
Definition is_debug (ev : Event) : bool :=
  match ev with EvLog DEBUG _ => true | _ => false end.

(** ** Sample inputs *)

Definition sample_now : datetime := Datetime 2024 5 17 13 45 12 250000.
Definition sample_utcnow : datetime := Datetime 2024 5 17 11 45 12 250007.

Definition sample_sensor : EnpalSensor :=
  EnpalSensor_init "Energy.Production.Total.Day" "inverter" "mdi:solar-power-variant"
    "Enpal Production Day" (CStr "192.168.178.20") (CInt 8086) (CStr "secret")
    "energy" "kWh".

Definition legacy_sensor : EnpalSensor :=
  EnpalSensor_init "Percent.Storage.Level" "inverter" "mdi:battery"
    "Enpal Battery Percent" (CStr "192.168.178.20") (CInt 8086) (CStr "secret")
    "battery" "%".

Definition sample_table (f m : string) (v : pyval) : FluxTable :=
  {| records := [ {| values_field := Some f; values_measurement := Some m;
                     values_value := Some v |} ] |}.

(** A database that answers the updater's query with one sample [v]. *)
Definition db_value (v : pyval) : Influx :=
  fun _ _ _ q =>
    match q with
    | QueryLastOf m f => Ok [sample_table f m v]
    | QueryLast => Ok []
    end.

Definition db_empty : Influx := fun _ _ _ _ => Ok [].
Definition db_down : Influx :=
  fun _ _ _ _ => Raise (Exn OtherException "Connection refused").
Definition db_cancelled : Influx :=
  fun _ _ _ _ => Raise (Exn CancelledError "").

Definition env_of (db : Influx) : UpdEnv :=
  {| influx := db; now := sample_now; utcnow := sample_utcnow |}.

(** A database that answers the discovery query with [tables]. *)
Definition db_tables (tables : list FluxTable) : Influx := fun _ _ _ _ => Ok tables.

Definition sample_config : gmap string conf_value :=
  {[ "enpal_host_ip" := CStr "192.168.178.20";
     "enpal_host_port" := CInt 8086;
     "enpal_token" := CStr "secret" ]}.

Definition sample_hass : HomeAssistant :=
  {| data := {[ "entry-1" := sample_config ]};
     entity_registry :=
       {[ "sensor.enpal_solar_production_power" :=
            {| config_entry_id := "entry-1"; unique_id := "enpal_inverter_Power.DC.Total" |};
          "sensor.kitchen_temperature" :=
            {| config_entry_id := "entry-2"; unique_id := "kitchen" |} ]} |}.

Definition sample_entry : ConfigEntry := {| entry_id := "entry-1"; options := ∅ |}.

(** A stored configuration without the access token. *)
Definition hass_without_token : HomeAssistant :=
  {| data := {[ "entry-1" := delete "enpal_token" sample_config ]};
     entity_registry := entity_registry sample_hass |}.

Definition sample_tables : list FluxTable :=
  [ sample_table "Power.DC.Total" "inverter" (PFloat (float_of_Z 4200));
    sample_table "Frequency.Grid" "inverter" (PFloat (float_of_Z 50));
    sample_table "Power.DC.Total" "powerSensor" (PFloat (float_of_Z 4100));
    sample_table "Frequency.Grid" "powerSensor" (PFloat (float_of_Z 50)) ].

(** ** Further definitions used in the statements *)

(** The entity before the icon rule: everything [succeeded] sets apart
    from the icon. *)
Definition refreshed (env : UpdEnv) (f : float) (s : EnpalSensor) : EnpalSensor :=
  reset_daily env "Wh"
    (reset_daily env "kWh"
       (attr_put "measurement" (AttrStr (measurement s))
          (attr_put "field" (AttrStr (field s))
             (attr_put "last_check" (AttrDatetime (now env))
                (set_state_class (Some "measurement")
                   (set_native_unit_of_measurement (Some (sensor_unit s))
                      (set_device_class (Some (enpal_device_class s))
                         (set_native_value (Some (py_round2 f)) s)))))))).

Definition is_energy_unit (u : string) : bool :=
  bool_decide (u = "kWh") || bool_decide (u = "Wh").

Definition attributes_after_success (env : UpdEnv) (s : EnpalSensor) : gmap string attr_value :=
  let a := <["measurement" := AttrStr (measurement s)]>
             (<["field" := AttrStr (field s)]>
                (<["last_check" := AttrDatetime (now env)]>
                   (_attr_extra_state_attributes s))) in
  if is_energy_unit (sensor_unit s)
  then <["last_reset" := AttrDatetime (replace_midnight (utcnow env))]> a
  else a.


(** The entities the loop appends, field by field. *)
Definition discovered (config : gmap string conf_value) (tables : list FluxTable)
    (f : string) (found : list EnpalSensor) : Prop :=
  match first_measurement f tables, FIELD_MAP !! f with
  | Some m, Some cfg => exists e, entity_for config f m cfg = Some e /\ found = [e]
  | _, _ => found = []
  end.

(** The loop returns whenever every table has a first record with both
    tags and the configuration is complete. *)
Definition well_formed (table : FluxTable) : Prop :=
  exists r rs f m,
    records table = r :: rs /\ values_field r = Some f /\ values_measurement r = Some m.

Definition remove_all (l : list (string * RegistryEntry))
    (reg : gmap string RegistryEntry) : gmap string RegistryEntry :=
  foldl (fun r x => delete x.1 r) reg l.

(** The registry once the entries of configuration entry [id] are removed. *)
Definition purged (reg : gmap string RegistryEntry) (id : string)
    : gmap string RegistryEntry :=
  remove_all (async_entries_for_config_entry reg id) reg.

(** [hass] once the options are merged into the stored configuration. *)
Definition stored (h : HomeAssistant) (config_entry : ConfigEntry)
    (config : gmap string conf_value) : HomeAssistant :=
  {| data := if bool_decide (options config_entry ≠ ∅)
             then <[entry_id config_entry := config]> (data h)
             else data h;
     entity_registry := entity_registry h |}.

Definition removals (h : HomeAssistant) (config_entry : ConfigEntry) : list Event :=
  map (fun x => EvRemove x.1)
      (async_entries_for_config_entry (entity_registry h) (entry_id config_entry)).

(** [async_setup_entry] from the three checks on, for the merged
    configuration [config]. *)
Definition setup_checked (db : Influx) (config_entry : ConfigEntry)
    (config : gmap string conf_value) : M World unit :=
  if bool_decide (config !! "enpal_host_ip" = None) then
    tell (EvLog ERROR "No enpal_host_ip in config entry")
  else if bool_decide (config !! "enpal_host_port" = None) then
    tell (EvLog ERROR "No enpal_host_port in config entry")
  else if bool_decide (config !! "enpal_token" = None) then
    tell (EvLog ERROR "No enpal_token in config entry")
  else
    ip <- lift (getitem "enpal_host_ip" (config !! "enpal_host_ip")) ;;
    port <- lift (getitem "enpal_host_port" (config !! "enpal_host_port")) ;;
    token <- lift (getitem "enpal_token" (config !! "enpal_token")) ;;
    tables <- get_tables db ip port token ;;
    to_add <- discover config tables ∅ [] ;;
    w <- get ;;
    let entries := async_entries_for_config_entry (entity_registry (hass w))
                                                  (entry_id config_entry) in
    for_each entries (fun entry => async_remove entry.1) ;;;
    tell (EvAddEntities to_add true).

(** What an entity is, as opposed to what it currently shows. *)
Definition same_identity (s s' : EnpalSensor) : Prop :=
  field s' = field s /\ measurement s' = measurement s /\
  ip s' = ip s /\ port s' = port s /\ token s' = token s /\
  enpal_device_class s' = enpal_device_class s /\ sensor_unit s' = sensor_unit s /\
  _attr_name s' = _attr_name s /\ _attr_unique_id s' = _attr_unique_id s.

Definition kept (s s' : EnpalSensor) : Prop :=
  same_identity s s' /\ _state s' = _state s.

(** [a < b] on floats; [False] on NaN. *)
Definition py_lt (a b : float) : bool := SFltb a b.

Definition underscore : Ascii.ascii := Ascii.ascii_of_nat 95.

(** No character of [s] is an underscore. *)
Fixpoint no_underscore (s : string) : bool :=
  match s with
  | EmptyString => true
  | String c rest => negb (Ascii.eqb c underscore) && no_underscore rest
  end.

Definition shows (dc u : option string) (s : EnpalSensor) : Prop :=
  _attr_device_class s = dc /\ _attr_native_unit_of_measurement s = u.

(** * Lemmas *)

(** ** Order of binary64 values *)

Lemma SFcompare_finite_pos m1 e1 m2 e2 :
  SFcompare (S754_finite false m1 e1) (S754_finite false m2 e2)
  = Some (match e1 ?= e2 with
          | Eq => (m1 ?= m2)%positive
          | c => c
          end).
Proof. cbn. now destruct (e1 ?= e2). Qed.

Lemma SFcompare_finite_neg m1 e1 m2 e2 :
  SFcompare (S754_finite true m1 e1) (S754_finite true m2 e2)
  = Some (match e1 ?= e2 with
          | Eq => CompOpp (m1 ?= m2)%positive
          | c => CompOpp c
          end).
Proof. cbn. now destruct (e1 ?= e2). Qed.

Ltac order_cases :=
  repeat match goal with
         | |- context [(?a ?= ?b)%Z] => destruct (Z.compare_spec a b)
         | |- context [(?a ?= ?b)%positive] => destruct (Pos.compare_spec a b)
         | H : context [(?a ?= ?b)%Z] |- _ => destruct (Z.compare_spec a b)
         | H : context [(?a ?= ?b)%positive] |- _ => destruct (Pos.compare_spec a b)
         end;
  cbn in *; try discriminate; try reflexivity; try lia.

Lemma SFleb_trans a b c :
  SFleb a b = true -> SFleb b c = true -> SFleb a c = true.
Proof.
  unfold SFleb.
  destruct a as [sa|sa| |sa ma ea], b as [sb|sb| |sb mb eb], c as [sc|sc| |sc mc ec];
    try destruct sa; try destruct sb; try destruct sc;
    rewrite ?SFcompare_finite_pos, ?SFcompare_finite_neg;
    try (cbn; congruence);
    intros H1 H2; order_cases.
Qed.

Lemma SFeqb_SFleb a b : SFeqb a b = true -> SFleb b a = true.
Proof.
  unfold SFeqb, SFleb.
  destruct a as [sa|sa| |sa ma ea], b as [sb|sb| |sb mb eb];
    try destruct sa; try destruct sb;
    rewrite ?SFcompare_finite_pos, ?SFcompare_finite_neg;
    try (cbn; congruence);
    intros H1; order_cases.
Qed.

(** A value below [c] is not at or above a bound that [c] does not reach. *)
Lemma py_ge_false_of_le v c lo :
  SFleb v c = true -> SFleb lo c = false -> py_ge v lo = false.
Proof.
  intros Hv Hc. unfold py_ge. destruct (SFleb lo v) eqn:E; [|reflexivity].
  now rewrite (SFleb_trans _ _ _ E Hv) in Hc.
Qed.

Lemma py_le_false_of_ge v c hi :
  SFleb c v = true -> SFleb c hi = false -> py_le v hi = false.
Proof.
  intros Hv Hc. unfold py_le. destruct (SFleb v hi) eqn:E; [|reflexivity].
  now rewrite (SFleb_trans _ _ _ Hv E) in Hc.
Qed.

Lemma py_eq_false_of_le v c x :
  SFleb v c = true -> SFleb x c = false -> py_eq v x = false.
Proof.
  intros Hv Hc. unfold py_eq. destruct (SFeqb v x) eqn:E; [|reflexivity].
  apply SFeqb_SFleb in E. now rewrite (SFleb_trans _ _ _ E Hv) in Hc.
Qed.

(** ** The monad *)

Lemma bind_Ok {S A B} (c : M S A) (k : A -> M S B) s a s' :
  c s = (Ok a, s') -> bind c k s = k a s'.
Proof. intros H. unfold bind. now rewrite H. Qed.

Lemma bind_Raise {S A B} (c : M S A) (k : A -> M S B) s e s' :
  c s = (Raise e, s') -> bind c k s = (Raise e, s').
Proof. intros H. unfold bind. now rewrite H. Qed.

Lemma bind_inv_Ok {S A B} (c : M S A) (k : A -> M S B) s b s'' :
  bind c k s = (Ok b, s'') ->
  exists a s', c s = (Ok a, s') /\ k a s' = (Ok b, s'').
Proof.
  unfold bind. destruct (c s) as [[a|e] s']; [eauto | discriminate].
Qed.

(** ** The updater runs to its closed form *)

Ltac sensor_fields :=
  cbv [self emitted app field measurement ip port token enpal_device_class
       sensor_unit _attr_icon _attr_name _attr_unique_id
       _attr_extra_state_attributes _attr_native_value _attr_device_class
       _attr_native_unit_of_measurement _attr_state_class _state
       set_extra_state_attributes set_native_value set_device_class
       set_native_unit_of_measurement set_state_class set_state].

Ltac run_monad :=
  cbv [bind read get ret emit modify lift assign attr_setitem raise
       mark_total_increasing when];
  sensor_fields.

Lemma tier_native hi lo icon v s :
  _attr_native_value (tier hi lo icon v s) = _attr_native_value s.
Proof. unfold tier. now destruct (_ && _). Qed.

Lemma icon_tier_run hi lo icon v st :
  _attr_native_value (self st) = Some v ->
  icon_tier hi lo icon st
  = (Ok tt, {| self := tier hi lo icon v (self st); emitted := emitted st |}).
Proof.
  intros H. unfold tier.
  cbv [icon_tier native_value_operand read bind get ret raise].
  rewrite H. cbv [when assign modify ret].
  destruct (_ && _); [reflexivity | now destruct st].
Qed.

Lemma select_battery_icon_run v st :
  _attr_native_value (self st) = Some v ->
  select_battery_icon st
  = (Ok tt, {| self := battery_icons v (self st); emitted := emitted st |}).
Proof.
  intros H. unfold battery_icons, select_battery_icon.
  set (s1 := if py_ge v (float_of_Z 10)
             then set_icon "mdi:battery-outline" (self st) else self st).
  assert (H1 : _attr_native_value s1 = Some v)
    by (subst s1; now destruct (py_ge _ _)).
  erewrite bind_Ok with (s' := st) (a := v);
    [| cbv [native_value_operand read bind get ret]; now rewrite H].
  erewrite bind_Ok with (s' := {| self := s1; emitted := emitted st |}) (a := tt);
    [| subst s1; unfold when; destruct (py_ge _ _); [reflexivity | now destruct st]].
  repeat (erewrite bind_Ok;
          [| apply icon_tier_run; cbn [self]; rewrite ?tier_native; exact H1]).
  cbn [self emitted].
  erewrite bind_Ok with (a := v);
    [| cbv [native_value_operand read bind get ret]; cbn [self];
       rewrite ?tier_native, H1; reflexivity].
  unfold when. now destruct (py_eq _ _).
Qed.

Lemma update_try_run env s :
  update_try env (start s)
  = let q := EvQuery (ip s) (port s) (token s) (update_query s) in
    match polled env s with
    | Ok f => (Ok tt, {| self := succeeded env f s; emitted := [q] |})
    | Raise e => (Raise e, {| self := s; emitted := [q] |})
    end.
Proof.
  destruct s as [fld meas ip0 port0 tok dc u ic nm uid attrs nv adc au sc stt].
  unfold update_try, polled, update_query, start.
  run_monad.
  destruct (influx env _ _ _ _) as [tables|e]; [|reflexivity].
  destruct tables as [|table ?];
    [| unfold index0, getitem; destruct (records table) as [|r ?];
       [reflexivity | destruct (values_value r) as [v|]; [|reflexivity]]].
  all: cbv beta iota; destruct (py_float _) as [f|e]; [|reflexivity].
  all: unfold succeeded, reset_daily, attr_put; sensor_fields.
  all: destruct (bool_decide (Some u = Some "kWh"));
    destruct (bool_decide (Some u = Some "Wh"));
    destruct (bool_decide (fld = "Percent.Storage.Level"));
    try reflexivity;
    now rewrite (select_battery_icon_run (py_round2 f)).
Qed.

Lemma run_update_eq env s :
  run_update env s
  = let q := EvQuery (ip s) (port s) (token s) (update_query s) in
    match polled env s with
    | Ok f => (Ok tt, {| self := succeeded env f s; emitted := [q] |})
    | Raise e =>
        if is_Exception (exn_cls e)
        then (Ok tt, {| self := failed env s; emitted := [q; EvLog ERROR (exn_str e)] |})
        else (Raise e, {| self := s; emitted := [q] |})
    end.
Proof.
  unfold run_update, async_update, try_except_Exception.
  fold (start s). rewrite update_try_run.
  cbv zeta. destruct (polled env s) as [f|e]; [reflexivity|].
  destruct (is_Exception (exn_cls e)); reflexivity.
Qed.

(** ** What a finished [try] block leaves in the entity *)

Lemma tier_attrs hi lo icon v s :
  _attr_extra_state_attributes (tier hi lo icon v s) = _attr_extra_state_attributes s.
Proof. unfold tier. now destruct (_ && _). Qed.

Lemma tier_state_class hi lo icon v s :
  _attr_state_class (tier hi lo icon v s) = _attr_state_class s.
Proof. unfold tier. now destruct (_ && _). Qed.

Lemma tier_field hi lo icon v s : field (tier hi lo icon v s) = field s.
Proof. unfold tier. now destruct (_ && _). Qed.

Lemma battery_icons_frame v s :
  _attr_extra_state_attributes (battery_icons v s) = _attr_extra_state_attributes s /\
  _attr_state_class (battery_icons v s) = _attr_state_class s /\
  _attr_native_value (battery_icons v s) = _attr_native_value s /\
  field (battery_icons v s) = field s.
Proof.
  unfold battery_icons.
  destruct (py_eq _ _); cbn [set_icon _attr_extra_state_attributes
    _attr_state_class _attr_native_value field];
    rewrite ?tier_attrs, ?tier_state_class, ?tier_native, ?tier_field;
    destruct (py_ge _ _); auto.
Qed.

Lemma succeeded_eq env f s :
  succeeded env f s
  = if bool_decide (field s = "Percent.Storage.Level")
    then battery_icons (py_round2 f) (refreshed env f s)
    else refreshed env f s.
Proof.
  destruct s. unfold succeeded, refreshed, reset_daily, attr_put. sensor_fields.
  destruct (bool_decide (Some _ = Some "kWh")),
           (bool_decide (Some _ = Some "Wh")); reflexivity.
Qed.

Lemma bool_decide_Some (u k : string) :
  bool_decide (Some u = Some k) = bool_decide (u = k).
Proof. apply bool_decide_ext. split; congruence. Qed.

Lemma refreshed_facts env f s :
  _attr_native_value (refreshed env f s) = Some (py_round2 f) /\
  field (refreshed env f s) = field s /\
  _attr_icon (refreshed env f s) = _attr_icon s /\
  _attr_state_class (refreshed env f s)
  = Some (if is_energy_unit (sensor_unit s) then "total_increasing" else "measurement") /\
  _attr_extra_state_attributes (refreshed env f s) = attributes_after_success env s.
Proof.
  destruct s as [fld meas ip0 port0 tok dc u ic nm uid attrs nv adc au sc stt].
  unfold refreshed, reset_daily, attr_put, attributes_after_success, is_energy_unit.
  sensor_fields.
  rewrite <- !bool_decide_Some.
  destruct (bool_decide (Some u = Some "kWh")) eqn:Hk; sensor_fields.
  - apply bool_decide_eq_true in Hk. injection Hk as ->.
    replace (bool_decide (Some "kWh" = Some "Wh")) with false by reflexivity.
    repeat split.
  - destruct (bool_decide (Some u = Some "Wh")); repeat split.
Qed.

Lemma succeeded_facts env f s :
  _attr_native_value (succeeded env f s) = Some (py_round2 f) /\
  field (succeeded env f s) = field s /\
  _attr_state_class (succeeded env f s)
  = Some (if is_energy_unit (sensor_unit s) then "total_increasing" else "measurement") /\
  _attr_extra_state_attributes (succeeded env f s) = attributes_after_success env s.
Proof.
  destruct (refreshed_facts env f s) as (Hv & Hf & _ & Hc & Ha).
  rewrite succeeded_eq. destruct (bool_decide _); [|tauto].
  destruct (battery_icons_frame (py_round2 f) (refreshed env f s)) as (-> & -> & -> & ->).
  tauto.
Qed.

Lemma failed_facts env s :
  _attr_native_value (failed env s) = None /\
  field (failed env s) = field s /\
  _attr_icon (failed env s) = _attr_icon s /\
  _attr_extra_state_attributes (failed env s)
  = <["last_check" := AttrDatetime (now env)]> (_attr_extra_state_attributes s).
Proof. now destruct s. Qed.

Lemma update_try_Ok_inv env s st :
  update_try env (start s) = (Ok tt, st) ->
  exists f, polled env s = Ok f /\ self st = succeeded env f s.
Proof.
  rewrite update_try_run. cbv zeta.
  destruct (polled env s) as [f|e]; [|discriminate].
  intros [= <-]. eauto.
Qed.

Lemma update_try_Raise_inv env s e st :
  update_try env (start s) = (Raise e, st) ->
  polled env s = Raise e /\ self st = s.
Proof.
  rewrite update_try_run. cbv zeta.
  destruct (polled env s) as [f|e']; [discriminate|].
  now intros [= <- <-].
Qed.

(** ** The updater: claims *)

(** C1 (as amended).  [async_update] never lets an exception of class
    [Exception] out.  When the query or the conversion raises an
    [Exception], the call returns normally, the current value is [None], the
    error is logged and [last_check] holds the time of the check.  When what
    is raised derives from [BaseException] only (a cancelled await, for
    instance), it is not caught: the call raises that very exception to its
    caller and the entity is as it was.  A [try] block that runs to its end
    is the whole call. *)
Theorem async_update_raises_no_Exception env s r st :
  run_update env s = (r, st) ->
  (r = Ok tt \/
   exists e, r = Raise e /\ is_Exception (exn_cls e) = false /\ self st = s) /\
  (forall e st0,
     update_try env (start s) = (Raise e, st0) ->
     is_Exception (exn_cls e) = true ->
     r = Ok tt /\
     _attr_native_value (self st) = None /\
     _attr_extra_state_attributes (self st) !! "last_check"
     = Some (AttrDatetime (now env)) /\
     EvLog ERROR (exn_str e) ∈ emitted st) /\
  (forall e st0,
     update_try env (start s) = (Raise e, st0) ->
     is_Exception (exn_cls e) = false ->
     r = Raise e /\ st = st0 /\ self st = s) /\
  (forall st0,
     update_try env (start s) = (Ok tt, st0) ->
     r = Ok tt /\ st = st0).
Proof.
  intros Hrun.
  assert (Hdef : run_update env s
                 = match update_try env (start s) with
                   | (Raise e, st0) =>
                       if is_Exception (exn_cls e)
                       then update_except env e st0 else (Raise e, st0)
                   | out => out
                   end).
  { unfold run_update, async_update, try_except_Exception. fold (start s).
    destruct (update_try env (start s)) as [[[]|e] st0]; reflexivity. }
  split; [|split; [|split]].
  - rewrite run_update_eq in Hrun. cbv zeta in Hrun.
    destruct (polled env s) as [f|e]; [left; congruence|].
    destruct (is_Exception (exn_cls e)) eqn:Hcls; [left; congruence|].
    right. exists e. now inversion Hrun.
  - intros e st0 Htry Hcls. rewrite run_update_eq in Hrun. cbv zeta in Hrun.
    apply update_try_Raise_inv in Htry as [Hp _].
    rewrite Hp, Hcls in Hrun. inversion Hrun; subst; clear Hrun.
    destruct (failed_facts env s) as (Hv & _ & _ & Ha).
    cbn [self emitted]. rewrite Hv, Ha, lookup_insert_eq.
    repeat split; try reflexivity. set_solver.
  - intros e st0 Htry Hcls. rewrite Hdef, Htry, Hcls in Hrun.
    injection Hrun as <- <-.
    apply update_try_Raise_inv in Htry as [_ Hs]. repeat split; assumption || reflexivity.
  - intros st0 Htry. rewrite Hdef, Htry in Hrun. now injection Hrun as <- <-.
Qed.

(** C1, the claim as stated fails: an await that is cancelled raises
    [CancelledError], which [except Exception] does not catch. *)
Lemma async_update_cancelled_propagates :
  run_update (env_of db_cancelled) sample_sensor
  = (Raise (Exn CancelledError ""),
     {| self := sample_sensor;
        emitted := [EvQuery (CStr "192.168.178.20") (CInt 8086) (CStr "secret")
                      (QueryLastOf "inverter" "Energy.Production.Total.Day")] |}) /\
  ~ (forall env s, exists st, run_update env s = (Ok tt, st)).
Proof.
  split; [reflexivity|].
  intros H. destruct (H (env_of db_cancelled) sample_sensor) as [st Hst].
  discriminate Hst.
Qed.

Lemma async_update_raises_no_Exception_witness :
  ((run_update (env_of db_down) sample_sensor).1 = Ok tt /\
   _attr_native_value (self (run_update (env_of db_down) sample_sensor).2) = None /\
   _attr_extra_state_attributes (self (run_update (env_of db_down) sample_sensor).2)
     !! "last_check" = Some (AttrDatetime sample_now) /\
   EvLog ERROR "Connection refused"
     ∈ emitted (run_update (env_of db_down) sample_sensor).2) /\
  ((run_update (env_of db_cancelled) sample_sensor).1 = Raise (Exn CancelledError "") /\
   (run_update (env_of db_cancelled) sample_sensor).2
   = {| self := sample_sensor;
        emitted := [EvQuery (CStr "192.168.178.20") (CInt 8086) (CStr "secret")
                      (QueryLastOf "inverter" "Energy.Production.Total.Day")] |} /\
   self (run_update (env_of db_cancelled) sample_sensor).2 = sample_sensor).
Proof.
  split.
  - refine (proj1 (proj2 (async_update_raises_no_Exception (env_of db_down)
                            sample_sensor _ _ _))
              (Exn OtherException "Connection refused") _ _ _).
    + apply surjective_pairing.
    + vm_compute. reflexivity.
    + reflexivity.
  - refine (proj1 (proj2 (proj2 (async_update_raises_no_Exception (env_of db_cancelled)
                                   sample_sensor _ _ _)))
              (Exn CancelledError "") _ _ _).
    + apply surjective_pairing.
    + vm_compute. reflexivity.
    + reflexivity.
Defined.

(** C3.  After a [try] block that ran to its end, the state class is
    "measurement" unless the unit is "kWh" or "Wh"; for these it is
    "total_increasing" and [last_reset] is 00:00:00 of the day [utcnow()]
    gave. *)
Theorem state_class_after_update env s st :
  update_try env (start s) = (Ok tt, st) ->
  run_update env s = (Ok tt, st) /\
  (sensor_unit s <> "kWh" -> sensor_unit s <> "Wh" ->
   _attr_state_class (self st) = Some "measurement") /\
  (sensor_unit s = "kWh" \/ sensor_unit s = "Wh" ->
   _attr_state_class (self st) = Some "total_increasing" /\
   exists d, _attr_extra_state_attributes (self st) !! "last_reset"
             = Some (AttrDatetime d) /\
             is_midnight_of d (utcnow env)).
Proof.
  intros Htry. split.
  { unfold run_update, async_update, try_except_Exception.
    fold (start s). now rewrite Htry. }
  apply update_try_Ok_inv in Htry as (f & _ & ->).
  destruct (succeeded_facts env f s) as (_ & _ & -> & ->).
  unfold attributes_after_success, is_energy_unit. split.
  - intros Hk Hw. now rewrite !bool_decide_eq_false_2 by done.
  - intros Hu.
    assert (E : bool_decide (sensor_unit s = "kWh") || bool_decide (sensor_unit s = "Wh") = true).
    { destruct Hu as [-> | ->]; reflexivity. }
    rewrite E. split; [reflexivity|].
    exists (replace_midnight (utcnow env)). rewrite lookup_insert_eq.
    split; [reflexivity|]. unfold is_midnight_of. cbn. tauto.
Qed.

Lemma state_class_after_update_witness :
  _attr_state_class (self (run_update (env_of (db_value (PInt 7))) sample_sensor).2)
  = Some "total_increasing" /\
  exists d,
    _attr_extra_state_attributes
      (self (run_update (env_of (db_value (PInt 7))) sample_sensor).2) !! "last_reset"
    = Some (AttrDatetime d) /\ is_midnight_of d sample_utcnow.
Proof.
  refine (proj2 (proj2 (state_class_after_update (env_of (db_value (PInt 7)))
                          sample_sensor _ _)) _).
  - vm_compute. reflexivity.
  - left. reflexivity.
Defined.

(** C4.  When the query returns no table, the stored value is the float
    [+0.0], not [None]. *)
Theorem zero_rows_store_zero env s :
  influx env (ip s) (port s) (token s) (QueryLastOf (measurement s) (field s)) = Ok [] ->
  exists st,
    run_update env s = (Ok tt, st) /\
    _attr_native_value (self st) = Some (S754_zero false).
Proof.
  intros Hq. rewrite run_update_eq. cbv zeta.
  unfold polled, update_query. rewrite Hq.
  change (py_float (PInt 0)) with (Ok (S754_zero false)).
  eexists. split; [reflexivity|].
  cbn [self]. now destruct (succeeded_facts env (S754_zero false) s) as (-> & _).
Qed.

Lemma zero_rows_store_zero_witness :
  exists st,
    run_update (env_of db_empty) sample_sensor = (Ok tt, st) /\
    _attr_native_value (self st) = Some (S754_zero false).
Proof.
  apply (zero_rows_store_zero (env_of db_empty) sample_sensor). reflexivity.
Defined.











(** The doubles behind the decimals of C9. *)
Example float_123_456 :
  float_of_frac false 123456 1000 = S754_finite false 8687443681197687 (-46).
Proof. vm_compute. reflexivity. Qed.

Example float_123_46 :
  float_of_frac false 12346 100 = S754_finite false 8687725156174397 (-46).
Proof. vm_compute. reflexivity. Qed.

(** ** The battery icon rule *)

Lemma tier_hit hi lo icon v s :
  py_le (float_of_Z lo) v = true -> py_le v (float_of_Z hi) = true ->
  tier hi lo icon v s = set_icon icon s.
Proof. unfold tier, py_ge, py_le. now intros -> ->. Qed.

Lemma tier_below hi lo icon v s c :
  py_le v c = true -> SFleb (float_of_Z lo) c = false ->
  tier hi lo icon v s = s.
Proof.
  intros Hv Hc. unfold tier.
  now rewrite (py_ge_false_of_le v c _ Hv Hc), andb_false_r.
Qed.

Lemma tier_above hi lo icon v s c :
  py_le c v = true -> SFleb c (float_of_Z hi) = false ->
  tier hi lo icon v s = s.
Proof.
  intros Hv Hc. unfold tier.
  now rewrite (py_le_false_of_ge v c _ Hv Hc).
Qed.

Ltac settle_tier L U :=
  match goal with
  | |- context [tier ?hi ?lo ?icon ?v ?s] =>
      first [ rewrite (tier_hit hi lo icon v s L U)
            | rewrite (tier_below hi lo icon v s _ U) by reflexivity
            | rewrite (tier_above hi lo icon v s _ L) by reflexivity ]
  end.

Lemma battery_icons_tier v s k :
  1 <= k <= 9 ->
  py_le (float_of_Z (10 * k)) v = true ->
  py_le v (float_of_Z (10 * k + 9)) = true ->
  _attr_icon (battery_icons v s) = tier_icon k.
Proof.
  intros Hk L U.
  assert (Hcases : k = 1 \/ k = 2 \/ k = 3 \/ k = 4 \/ k = 5 \/ k = 6 \/ k = 7 \/
                   k = 8 \/ k = 9) by lia.
  unfold battery_icons.
  decompose [or] Hcases; subst k;
    change (10 * _ + 9) with 19 in U || change (10 * _ + 9) with 29 in U
    || change (10 * _ + 9) with 39 in U || change (10 * _ + 9) with 49 in U
    || change (10 * _ + 9) with 59 in U || change (10 * _ + 9) with 69 in U
    || change (10 * _ + 9) with 79 in U || change (10 * _ + 9) with 89 in U
    || change (10 * _ + 9) with 99 in U;
    change (10 * _) with 10 in L || change (10 * _) with 20 in L
    || change (10 * _) with 30 in L || change (10 * _) with 40 in L
    || change (10 * _) with 50 in L || change (10 * _) with 60 in L
    || change (10 * _) with 70 in L || change (10 * _) with 80 in L
    || change (10 * _) with 90 in L;
    rewrite (py_eq_false_of_le v _ (float_of_Z 100) U) by reflexivity;
    repeat settle_tier L U;
    reflexivity.
Qed.

Lemma battery_icons_full v s :
  py_eq v (float_of_Z 100) = true ->
  _attr_icon (battery_icons v s) = "mdi:battery".
Proof. intros H. unfold battery_icons. now rewrite H. Qed.

(** C7.  After a finished [try] block of an entity whose field is
    'Percent.Storage.Level', a value [v] with [10*k <= v <= 10*k + 9] for
    [k] in 1..9 gives the icon "mdi:battery-" followed by [10*k], and a value
    equal to 100 gives "mdi:battery". *)
Theorem battery_icon_by_tier env s st v :
  update_try env (start s) = (Ok tt, st) ->
  field s = "Percent.Storage.Level" ->
  _attr_native_value (self st) = Some v ->
  (forall k, 1 <= k <= 9 ->
     py_le (float_of_Z (10 * k)) v = true ->
     py_le v (float_of_Z (10 * k + 9)) = true ->
     _attr_icon (self st) = tier_icon k) /\
  (py_eq v (float_of_Z 100) = true -> _attr_icon (self st) = "mdi:battery").
Proof.
  intros Htry Hf Hv.
  apply update_try_Ok_inv in Htry as (f & _ & Hst). rewrite Hst in *.
  destruct (succeeded_facts env f s) as (Hv' & _).
  assert (v = py_round2 f) as -> by congruence.
  rewrite succeeded_eq, bool_decide_eq_true_2 by exact Hf.
  split.
  - intros k. apply battery_icons_tier.
  - apply battery_icons_full.
Qed.

Lemma battery_icon_by_tier_witness :
  _attr_icon (self (run_update (env_of (db_value (PInt 55))) legacy_sensor).2)
  = "mdi:battery-50" /\
  _attr_icon (self (run_update (env_of (db_value (PInt 100))) legacy_sensor).2)
  = "mdi:battery".
Proof.
  split.
  - refine (proj1 (battery_icon_by_tier (env_of (db_value (PInt 55))) legacy_sensor
                     _ (float_of_Z 55) _ _ _) 5 _ _ _).
    + vm_compute. reflexivity.
    + reflexivity.
    + vm_compute. reflexivity.
    + lia.
    + vm_compute. reflexivity.
    + vm_compute. reflexivity.
  - refine (proj2 (battery_icon_by_tier (env_of (db_value (PInt 100))) legacy_sensor
                     _ (float_of_Z 100) _ _ _) _).
    + vm_compute. reflexivity.
    + reflexivity.
    + vm_compute. reflexivity.
    + vm_compute. reflexivity.
Defined.

(** ** The attribute mapping *)

Lemma attributes_after_success_lookup env s k :
  k <> "last_check" -> k <> "field" -> k <> "measurement" -> k <> "last_reset" ->
  attributes_after_success env s !! k = _attr_extra_state_attributes s !! k.
Proof.
  intros. unfold attributes_after_success.
  destruct (is_energy_unit _); now rewrite !lookup_insert_ne by done.
Qed.

Lemma attributes_after_success_keys env s :
  attributes_after_success env s !! "last_check" = Some (AttrDatetime (now env)) /\
  attributes_after_success env s !! "field" = Some (AttrStr (field s)) /\
  attributes_after_success env s !! "measurement" = Some (AttrStr (measurement s)).
Proof.
  unfold attributes_after_success.
  destruct (is_energy_unit _);
    repeat split;
    repeat (rewrite lookup_insert_eq || rewrite lookup_insert_ne by done);
    reflexivity.
Qed.

Lemma attributes_after_success_mono env s k :
  is_Some (_attr_extra_state_attributes s !! k) ->
  is_Some (attributes_after_success env s !! k).
Proof.
  intros H. unfold attributes_after_success.
  destruct (is_energy_unit _); rewrite !lookup_insert_is_Some'; tauto.
Qed.

(** C8 (as amended).  Every call that returns writes [last_check]; a
    finished [try] block also writes [field] and [measurement] (and
    [last_reset] when the unit is "kWh" or "Wh"), and nothing else; the
    handler writes [last_check] and nothing else; a call that raises writes
    nothing.  No key is ever removed, and keys other than these three and
    [last_reset] keep their values. *)
Theorem async_update_attribute_keys env s r st :
  run_update env s = (r, st) ->
  let a := _attr_extra_state_attributes s in
  let a' := _attr_extra_state_attributes (self st) in
  (forall k, is_Some (a !! k) -> is_Some (a' !! k)) /\
  (forall k, k <> "last_check" -> k <> "field" -> k <> "measurement" ->
             k <> "last_reset" -> a' !! k = a !! k) /\
  (r = Ok tt -> a' !! "last_check" = Some (AttrDatetime (now env))) /\
  (forall st0, update_try env (start s) = (Ok tt, st0) ->
     a' !! "field" = Some (AttrStr (field s)) /\
     a' !! "measurement" = Some (AttrStr (measurement s))) /\
  (forall e st0, update_try env (start s) = (Raise e, st0) ->
     a' !! "field" = a !! "field" /\ a' !! "measurement" = a !! "measurement") /\
  (forall e st0, update_try env (start s) = (Raise e, st0) ->
     is_Exception (exn_cls e) = true ->
     a' = <["last_check" := AttrDatetime (now env)]> a) /\
  (forall e st0, update_try env (start s) = (Raise e, st0) ->
     is_Exception (exn_cls e) = false ->
     r = Raise e /\ a' = a) /\
  (forall st0, update_try env (start s) = (Ok tt, st0) ->
     a' = let written := <["measurement" := AttrStr (measurement s)]>
                           (<["field" := AttrStr (field s)]>
                              (<["last_check" := AttrDatetime (now env)]> a)) in
          if bool_decide (sensor_unit s = "kWh") || bool_decide (sensor_unit s = "Wh")
          then <["last_reset" := AttrDatetime (replace_midnight (utcnow env))]> written
          else written).
Proof.
  rewrite run_update_eq. cbv zeta. intros Hrun.
  destruct (polled env s) as [f|e] eqn:Hp.
  - inversion Hrun; subst; clear Hrun. cbn [self].
    destruct (succeeded_facts env f s) as (_ & _ & _ & ->).
    destruct (attributes_after_success_keys env s) as (Hc & Hf & Hm).
    assert (Hno : forall e st0, update_try env (start s) <> (Raise e, st0)).
    { intros e st0 Htry. apply update_try_Raise_inv in Htry as [Hp' _]. congruence. }
    split; [apply attributes_after_success_mono|].
    split; [apply attributes_after_success_lookup|].
    split; [intros _; exact Hc|].
    split; [intros _ _; split; [exact Hf | exact Hm]|].
    split; [intros e st0 Htry; exfalso; exact (Hno _ _ Htry)|].
    split; [intros e st0 Htry; exfalso; exact (Hno _ _ Htry)|].
    split; [intros e st0 Htry; exfalso; exact (Hno _ _ Htry)|].
    intros _ _. reflexivity.
  - assert (Hno : forall st0, update_try env (start s) <> (Ok tt, st0)).
    { intros st0 Htry. apply update_try_Ok_inv in Htry as (f & Hf & _). congruence. }
    assert (Hsame : forall e' st0, update_try env (start s) = (Raise e', st0) -> e' = e).
    { intros e' st0 Htry. apply update_try_Raise_inv in Htry as [Hp' _]. congruence. }
    destruct (is_Exception (exn_cls e)) eqn:Hcls;
      inversion Hrun; subst; clear Hrun; cbn [self].
    + destruct (failed_facts env s) as (_ & _ & _ & ->).
      split; [intros k Hk; rewrite lookup_insert_is_Some'; tauto|].
      split; [intros; now rewrite lookup_insert_ne by done|].
      split; [intros _; apply lookup_insert_eq|].
      split; [intros st0 Htry; exfalso; exact (Hno _ Htry)|].
      split; [intros; split; now rewrite lookup_insert_ne by done|].
      split; [intros; reflexivity|].
      split; [|intros st0 Htry; exfalso; exact (Hno _ Htry)].
      intros e' st0 Htry Hcls'. rewrite (Hsame _ _ Htry) in Hcls'. congruence.
    + split; [intros k Hk; exact Hk|].
      split; [intros; reflexivity|].
      split; [intros Hr; discriminate Hr|].
      split; [intros st0 Htry; exfalso; exact (Hno _ Htry)|].
      split; [intros; split; reflexivity|].
      split; [|split; [|intros st0 Htry; exfalso; exact (Hno _ Htry)]].
      * intros e' st0 Htry Hcls'. rewrite (Hsame _ _ Htry) in Hcls'. congruence.
      * intros e' st0 Htry _. rewrite (Hsame _ _ Htry). split; reflexivity.
Qed.

(** C8, the claim as stated fails: a failed poll of a fresh entity writes
    the check timestamp only. *)
Lemma failed_update_writes_timestamp_only :
  (run_update (env_of db_down) sample_sensor).1 = Ok tt /\
  _attr_extra_state_attributes (self (run_update (env_of db_down) sample_sensor).2)
  = {[ "last_check" := AttrDatetime sample_now ]} /\
  _attr_extra_state_attributes (self (run_update (env_of db_down) sample_sensor).2)
    !! "field" = None /\
  _attr_extra_state_attributes (self (run_update (env_of db_down) sample_sensor).2)
    !! "measurement" = None.
Proof. vm_compute. repeat split. Qed.

Lemma async_update_attribute_keys_witness :
  (_attr_extra_state_attributes
     (self (run_update (env_of (db_value (PInt 7))) sample_sensor).2) !! "field"
   = Some (AttrStr "Energy.Production.Total.Day") /\
   _attr_extra_state_attributes
     (self (run_update (env_of (db_value (PInt 7))) sample_sensor).2) !! "measurement"
   = Some (AttrStr "inverter")) /\
  _attr_extra_state_attributes (self (run_update (env_of db_down) sample_sensor).2)
  = <["last_check" := AttrDatetime sample_now]> ∅.
Proof.
  split.
  - refine (proj1 (proj2 (proj2 (proj2
              (async_update_attribute_keys (env_of (db_value (PInt 7))) sample_sensor
                 _ _ _)))) _ _).
    + apply surjective_pairing.
    + vm_compute. reflexivity.
  - refine (proj1 (proj2 (proj2 (proj2 (proj2 (proj2
              (async_update_attribute_keys (env_of db_down) sample_sensor
                 _ _ _))))))
              (Exn OtherException "Connection refused") _ _ _).
    + apply surjective_pairing.
    + vm_compute. reflexivity.
    + reflexivity.
Defined.

(** ** Discovery *)

Lemma entity_for_field config f m cfg e :
  entity_for config f m cfg = Some e -> field e = f /\ measurement e = m.
Proof.
  unfold entity_for.
  destruct (config !! "enpal_host_ip"); [|discriminate].
  destruct (config !! "enpal_host_port"); [|discriminate].
  destruct (config !! "enpal_token"); [|discriminate].
  cbn. now intros [= <-].
Qed.

Lemma seen_keep (enc : gset string) (f x : string) : f ∈ enc -> f ∈ enc ∪ {[x]}.
Proof. apply elem_of_union_l. Qed.

Lemma seen_new (enc : gset string) (x : string) : x ∈ enc ∪ {[x]}.
Proof. apply elem_of_union_r. now apply elem_of_singleton. Qed.

Lemma unseen_keep (enc : gset string) (f x : string) :
  f ∉ enc -> f <> x -> f ∉ enc ∪ {[x]}.
Proof.
  intros Hf Hx [H|H]%elem_of_union; [now apply Hf|].
  now apply elem_of_singleton in H.
Qed.

Lemma discover_Ok config tables :
  forall enc acc w l w',
    discover config tables enc acc w = (Ok l, w') ->
    hass w' = hass w /\
    (exists logs, trace w' = trace w ++ logs /\ Forall (fun ev => is_debug ev = true) logs) /\
    exists new, l = acc ++ new /\
      forall f, if decide (f ∈ enc)
                then filter (fun e => field e = f) new = []
                else discovered config tables f (filter (fun e => field e = f) new).
Proof.
  induction tables as [|table rest IH]; intros enc acc w l w' Hrun.
  - cbn in Hrun. injection Hrun as <- <-.
    split; [reflexivity|]. split; [exists []; now rewrite app_nil_r|].
    exists []. split; [now rewrite app_nil_r|].
    intros f. destruct (decide _); [reflexivity|].
    unfold discovered. cbn. reflexivity.
  - cbn [discover] in Hrun. cbv [bind lift index0 getitem] in Hrun.
    destruct (records table) as [|r rs] eqn:Hrec; [discriminate|].
    destruct (values_field r) as [fld|] eqn:Hfld; [|discriminate].
    destruct (values_measurement r) as [meas|] eqn:Hmeas; [|discriminate].
    destruct (decide (fld ∈ enc)) as [Hin|Hnin].
    + apply IH in Hrun as (Hh & Hlogs & new & -> & Hnew).
      split; [exact Hh|]. split; [exact Hlogs|].
      exists new. split; [reflexivity|].
      intros f. specialize (Hnew f). destruct (decide (f ∈ enc)) as [|Hf]; [exact Hnew|].
      unfold discovered in *. cbn [first_measurement]. rewrite Hrec, Hfld.
      destruct (decide (Some fld = Some f)) as [[= ->]|_]; [contradiction|exact Hnew].
    + destruct (FIELD_MAP !! fld) as [cfg|] eqn:Hcfg.
      * destruct (config !! "enpal_host_ip") as [ip0|] eqn:Hip; [|discriminate].
        destruct (config !! "enpal_host_port") as [port0|] eqn:Hport; [|discriminate].
        destruct (config !! "enpal_token") as [tok|] eqn:Htok; [|discriminate].
        apply IH in Hrun as (Hh & Hlogs & new & -> & Hnew).
        split; [exact Hh|]. split; [exact Hlogs|].
        eexists (_ :: new). split; [now rewrite <- app_assoc|].
        intros f. specialize (Hnew f).
        destruct (decide (f = fld)) as [->|Hne].
        -- rewrite decide_False by exact Hnin.
           rewrite decide_True in Hnew by apply seen_keep, seen_new.
           rewrite filter_cons_True by reflexivity. rewrite Hnew.
           unfold discovered. cbn [first_measurement].
           rewrite Hrec, Hfld, decide_True, Hmeas, Hcfg by reflexivity.
           eexists. split; [|reflexivity].
           unfold entity_for. now rewrite Hip, Hport, Htok.
        -- rewrite filter_cons_False by (cbn; congruence).
           destruct (decide (f ∈ enc)) as [Hf|Hf].
           ++ now rewrite decide_True in Hnew by apply seen_keep, seen_keep, Hf.
           ++ rewrite decide_False in Hnew by (apply unseen_keep; [apply unseen_keep|]; done).
              unfold discovered in *. cbn [first_measurement].
              rewrite Hrec, Hfld. now rewrite decide_False by congruence.
      * cbv [tell modify] in Hrun.
        apply IH in Hrun as (Hh & (logs & Hlogs & Hdbg) & new & -> & Hnew).
        cbn [hass trace] in Hh, Hlogs.
        split; [exact Hh|]. split.
        { eexists (_ :: logs). split; [now rewrite Hlogs, <- app_assoc|].
          now constructor. }
        exists new. split; [reflexivity|].
        intros f. specialize (Hnew f).
        destruct (decide (f = fld)) as [->|Hne].
        -- rewrite decide_False by exact Hnin.
           rewrite decide_True in Hnew by apply seen_new.
           unfold discovered. cbn [first_measurement].
           rewrite Hrec, Hfld, decide_True, Hmeas, Hcfg by reflexivity.
           exact Hnew.
        -- destruct (decide (f ∈ enc)) as [Hf|Hf].
           ++ now rewrite decide_True in Hnew by apply seen_keep, Hf.
           ++ rewrite decide_False in Hnew by (apply unseen_keep; done).
              unfold discovered in *. cbn [first_measurement].
              rewrite Hrec, Hfld. now rewrite decide_False by congruence.
Qed.

Lemma discover_total config tables :
  is_Some (config !! "enpal_host_ip") ->
  is_Some (config !! "enpal_host_port") ->
  is_Some (config !! "enpal_token") ->
  Forall well_formed tables ->
  forall enc acc w, exists l w', discover config tables enc acc w = (Ok l, w').
Proof.
  intros [ip0 Hip] [port0 Hport] [tok Htok] Hwf.
  induction Hwf as [|table rest (r & rs & f & m & Hrec & Hf & Hm) _ IH]; intros enc acc w.
  - cbn. eauto.
  - cbn [discover]. cbv [bind lift index0 getitem]. rewrite Hrec, Hf, Hm.
    destruct (decide _); [apply IH|].
    destruct (FIELD_MAP !! f); [rewrite Hip, Hport, Htok; apply IH|].
    cbv [tell modify]. apply IH.
Qed.

(** ** The registry *)

Lemma remove_all_lookup l : forall (reg : gmap string RegistryEntry) k,
  remove_all l reg !! k = if decide (k ∈ l.*1) then None else reg !! k.
Proof.
  unfold remove_all.
  induction l as [|x l IH]; intros reg k; cbn [foldl fmap list_fmap].
  - rewrite decide_False; [reflexivity | apply not_elem_of_nil].
  - rewrite IH. destruct (decide (k ∈ l.*1)) as [Hin|Hnin].
    + rewrite decide_True; [reflexivity | (apply elem_of_cons; now right)].
    + destruct (decide (k = x.1)) as [->|Hne].
      * rewrite lookup_delete_eq. rewrite decide_True; [reflexivity | (apply elem_of_cons; now left)].
      * rewrite lookup_delete_ne by congruence.
        rewrite decide_False; [reflexivity|].
        intros [?|?]%elem_of_cons; contradiction.
Qed.

Lemma for_each_remove l : forall d (reg : gmap string RegistryEntry) t,
  NoDup l.*1 ->
  (forall x, x ∈ l -> is_Some (reg !! x.1)) ->
  for_each l (fun entry => async_remove entry.1)
    {| hass := {| data := d; entity_registry := reg |}; trace := t |}
  = (Ok tt, {| hass := {| data := d; entity_registry := remove_all l reg |};
               trace := t ++ map (fun x => EvRemove x.1) l |}).
Proof.
  induction l as [|x l IH]; intros d reg t Hnd Hall.
  - cbn. now rewrite app_nil_r.
  - cbn [for_each]. apply NoDup_cons in Hnd as [Hx Hnd].
    destruct (Hall x (proj2 (elem_of_cons l x x) (or_introl eq_refl))) as [e He].
    cbv [bind async_remove get tell modify set_entity_registry raise].
    cbn [hass entity_registry data trace]. rewrite He.
    cbn [hass entity_registry data trace].
    rewrite IH; [now rewrite <- app_assoc | exact Hnd |].
    intros y Hy. rewrite lookup_delete_ne.
    + apply Hall. (apply elem_of_cons; now right).
    + intros Heq. apply Hx. rewrite Heq. apply list_elem_of_fmap. eauto.
Qed.

Lemma entries_for_config_entry_spec (reg : gmap string RegistryEntry) id k :
  k ∈ (async_entries_for_config_entry reg id).*1
  <-> exists e, reg !! k = Some e /\ config_entry_id e = id.
Proof.
  unfold async_entries_for_config_entry. rewrite list_elem_of_fmap. split.
  - intros ([k' e] & -> & [He Hin]%list_elem_of_filter).
    apply elem_of_map_to_list in Hin. eauto.
  - intros (e & Hk & He). exists (k, e). split; [reflexivity|].
    apply list_elem_of_filter. split; [exact He|]. now apply elem_of_map_to_list.
Qed.

Lemma entries_for_config_entry_NoDup (reg : gmap string RegistryEntry) id :
  NoDup (async_entries_for_config_entry reg id).*1.
Proof.
  unfold async_entries_for_config_entry.
  apply NoDup_fmap_fst.
  - intros k e1 e2 [_ H1%elem_of_map_to_list]%list_elem_of_filter
                   [_ H2%elem_of_map_to_list]%list_elem_of_filter.
    congruence.
  - apply NoDup_filter, NoDup_map_to_list.
Qed.

Lemma purged_lookup reg id k :
  purged reg id !! k
  = match reg !! k with
    | Some e => if decide (config_entry_id e = id) then None else Some e
    | None => None
    end.
Proof.
  unfold purged. rewrite remove_all_lookup.
  destruct (decide (k ∈ _)) as [Hin|Hnin].
  - apply entries_for_config_entry_spec in Hin as (e & -> & He).
    now rewrite decide_True.
  - destruct (reg !! k) as [e|] eqn:Hk; [|reflexivity].
    destruct (decide (config_entry_id e = id)) as [He|]; [|reflexivity].
    exfalso. apply Hnin, entries_for_config_entry_spec. eauto.
Qed.

Lemma discover_trace config tables :
  forall enc acc w r w',
    discover config tables enc acc w = (r, w') ->
    hass w' = hass w /\
    exists logs, trace w' = trace w ++ logs /\ Forall (fun ev => is_debug ev = true) logs.
Proof.
  assert (Hstop : forall (w w' : World) (r : result (list EnpalSensor)) e,
    (Raise e, w) = (r, w') ->
    hass w' = hass w /\
    exists logs, trace w' = trace w ++ logs /\ Forall (fun ev => is_debug ev = true) logs).
  { intros w w' r e [= <- <-]. split; [reflexivity|].
    exists []. split; [symmetry; apply app_nil_r | constructor]. }
  induction tables as [|table rest IH]; intros enc acc w r w' Hrun.
  - cbn in Hrun. injection Hrun as <- <-.
    split; [reflexivity|]. exists []. split; [symmetry; apply app_nil_r | constructor].
  - cbn [discover] in Hrun. cbv [bind lift index0 getitem] in Hrun.
    destruct (records table) as [|rec rs]; [exact (Hstop _ _ _ _ Hrun)|].
    destruct (values_field rec) as [fld|]; [|exact (Hstop _ _ _ _ Hrun)].
    destruct (values_measurement rec) as [meas|]; [|exact (Hstop _ _ _ _ Hrun)].
    destruct (decide (fld ∈ enc)); [exact (IH _ _ _ _ _ Hrun)|].
    destruct (FIELD_MAP !! fld).
    + destruct (config !! "enpal_host_ip"); [|exact (Hstop _ _ _ _ Hrun)].
      destruct (config !! "enpal_host_port"); [|exact (Hstop _ _ _ _ Hrun)].
      destruct (config !! "enpal_token"); [|exact (Hstop _ _ _ _ Hrun)].
      exact (IH _ _ _ _ _ Hrun).
    + cbv [tell modify] in Hrun.
      apply IH in Hrun as (Hh & logs & Hlogs & Hdbg). cbn [hass trace] in Hh, Hlogs.
      split; [exact Hh|]. eexists (_ :: logs).
      split; [rewrite Hlogs, <- app_assoc; reflexivity | constructor; [reflexivity | exact Hdbg]].
Qed.

(** ** The discovery run, case by case *)

Lemma setup_prelude db h ce config0 :
  data h !! entry_id ce = Some config0 ->
  run_setup db h ce
  = setup_checked db ce (options ce ∪ config0)
      {| hass := stored h ce (options ce ∪ config0); trace := [] |}.
Proof.
  intros Hc. unfold run_setup, async_setup_entry, stored.
  unfold bind at 1. unfold get at 1. cbn [hass trace].
  unfold bind at 1. unfold lift at 1, getitem at 1. rewrite Hc.
  unfold bind at 1.
  destruct (bool_decide (options ce ≠ ∅)) eqn:Hopt.
  - reflexivity.
  - apply bool_decide_eq_false in Hopt. apply dec_stable in Hopt.
    unfold ret at 1. rewrite Hopt, (left_id_L ∅ (∪)). destruct h; reflexivity.
Qed.

Lemma run_setup_missing db h ce config :
  merged_config h ce = Some config ->
  config !! "enpal_host_ip" = None \/ config !! "enpal_host_port" = None \/
  config !! "enpal_token" = None ->
  exists msg,
    run_setup db h ce
    = (Ok tt, {| hass := stored h ce config; trace := [EvLog ERROR msg] |}).
Proof.
  unfold merged_config. destruct (data h !! entry_id ce) as [config0|] eqn:Hc; [|discriminate].
  intros Hm Hmiss. cbn in Hm. injection Hm as <-.
  rewrite (setup_prelude db h ce config0 Hc). unfold setup_checked.
  destruct (bool_decide (_ !! "enpal_host_ip" = None)) eqn:H1; [eexists; reflexivity|].
  destruct (bool_decide (_ !! "enpal_host_port" = None)) eqn:H2; [eexists; reflexivity|].
  destruct (bool_decide (_ !! "enpal_token" = None)) eqn:H3; [eexists; reflexivity|].
  apply bool_decide_eq_false in H1, H2, H3. tauto.
Qed.

Lemma run_setup_complete db h ce config ip0 port0 tok :
  merged_config h ce = Some config ->
  config !! "enpal_host_ip" = Some ip0 ->
  config !! "enpal_host_port" = Some port0 ->
  config !! "enpal_token" = Some tok ->
  run_setup db h ce
  = let w1 := {| hass := stored h ce config; trace := [EvQuery ip0 port0 tok QueryLast] |} in
    match db ip0 port0 tok QueryLast with
    | Raise e => (Raise e, w1)
    | Ok tables =>
        match discover config tables ∅ [] w1 with
        | (Raise e, w2) => (Raise e, w2)
        | (Ok to_add, w2) =>
            (Ok tt,
             {| hass := {| data := data (stored h ce config);
                           entity_registry := purged (entity_registry h) (entry_id ce) |};
                trace := trace w2 ++ removals h ce ++ [EvAddEntities to_add true] |})
        end
    end.
Proof.
  unfold merged_config. destruct (data h !! entry_id ce) as [config0|] eqn:Hc; [|discriminate].
  intros Hm Hip Hport Htok. cbn in Hm. injection Hm as <-.
  rewrite (setup_prelude db h ce config0 Hc). unfold setup_checked.
  rewrite Hip, Hport, Htok.
  rewrite !bool_decide_eq_false_2 by discriminate.
  cbv [bind lift getitem get_tables tell modify]. cbn [hass trace app].
  destruct (db ip0 port0 tok QueryLast) as [tables|e]; [|reflexivity].
  destruct (discover _ tables ∅ [] _) as [[to_add|e] w2] eqn:Hd; [|reflexivity].
  apply discover_trace in Hd as (Hh & _). cbn [hass] in Hh.
  destruct w2 as [h2 t2]. cbn [hass trace] in *. subst h2.
  cbv [get]. cbn [hass entity_registry stored].
  fold (stored h ce (options ce ∪ config0)).
  change {| hass := stored h ce (options ce ∪ config0); trace := t2 |}
    with {| hass := {| data := data (stored h ce (options ce ∪ config0));
                       entity_registry := entity_registry h |}; trace := t2 |}.
  rewrite for_each_remove.
  - cbv [tell modify]. cbn [hass trace]. unfold purged, removals. now rewrite <- app_assoc.
  - apply entries_for_config_entry_NoDup.
  - intros [k e] [_ Hin%elem_of_map_to_list]%list_elem_of_filter. cbn. eauto.
Qed.

Lemma run_setup_no_config db h ce :
  data h !! entry_id ce = None ->
  run_setup db h ce
  = (Raise (Exn KeyError (repr_str (entry_id ce))), {| hass := h; trace := [] |}).
Proof.
  intros Hc. unfold run_setup, async_setup_entry.
  cbv [bind get lift getitem]. cbn [hass]. now rewrite Hc.
Qed.

Lemma debug_logs_no_add logs l b :
  Forall (fun ev => is_debug ev = true) logs -> EvAddEntities l b ∉ logs.
Proof.
  intros Hall Hin. rewrite Forall_forall in Hall.
  specialize (Hall _ Hin). discriminate Hall.
Qed.

Lemma removals_no_add h ce l b : EvAddEntities l b ∉ removals h ce.
Proof.
  unfold removals. intros Hin. apply list_elem_of_fmap in Hin as (x & Hx & _).
  discriminate Hx.
Qed.

(** A run that calls [async_add_entities] went through every step. *)
Lemma run_setup_registered db h ce r w' l b :
  run_setup db h ce = (r, w') ->
  EvAddEntities l b ∈ trace w' ->
  exists config ip0 port0 tok tables w2,
    merged_config h ce = Some config /\
    config !! "enpal_host_ip" = Some ip0 /\
    config !! "enpal_host_port" = Some port0 /\
    config !! "enpal_token" = Some tok /\
    db ip0 port0 tok QueryLast = Ok tables /\
    discover config tables ∅ []
      {| hass := stored h ce config; trace := [EvQuery ip0 port0 tok QueryLast] |}
    = (Ok l, w2) /\
    r = Ok tt /\ b = true /\
    w' = {| hass := {| data := data (stored h ce config);
                       entity_registry := purged (entity_registry h) (entry_id ce) |};
            trace := trace w2 ++ removals h ce ++ [EvAddEntities l true] |}.
Proof.
  intros Hrun Hin.
  destruct (data h !! entry_id ce) as [config0|] eqn:Hc.
  2:{ rewrite (run_setup_no_config db h ce Hc) in Hrun. injection Hrun as <- <-.
      cbn in Hin. now apply elem_of_nil in Hin. }
  assert (Hm : merged_config h ce = Some (options ce ∪ config0)).
  { unfold merged_config. rewrite Hc. reflexivity. }
  set (config := options ce ∪ config0) in *.
  destruct (config !! "enpal_host_ip") as [ip0|] eqn:Hip.
  2:{ destruct (run_setup_missing db h ce config Hm (or_introl Hip)) as [msg Hr].
      rewrite Hr in Hrun. injection Hrun as <- <-.
      cbn in Hin. apply list_elem_of_singleton in Hin. discriminate Hin. }
  destruct (config !! "enpal_host_port") as [port0|] eqn:Hport.
  2:{ destruct (run_setup_missing db h ce config Hm (or_intror (or_introl Hport))) as [msg Hr].
      rewrite Hr in Hrun. injection Hrun as <- <-.
      cbn in Hin. apply list_elem_of_singleton in Hin. discriminate Hin. }
  destruct (config !! "enpal_token") as [tok|] eqn:Htok.
  2:{ destruct (run_setup_missing db h ce config Hm (or_intror (or_intror Htok))) as [msg Hr].
      rewrite Hr in Hrun. injection Hrun as <- <-.
      cbn in Hin. apply list_elem_of_singleton in Hin. discriminate Hin. }
  rewrite (run_setup_complete db h ce config ip0 port0 tok Hm Hip Hport Htok) in Hrun.
  cbv zeta in Hrun.
  destruct (db ip0 port0 tok QueryLast) as [tables|e] eqn:Hdb.
  2:{ injection Hrun as <- <-. cbn in Hin.
      apply list_elem_of_singleton in Hin. discriminate Hin. }
  destruct (discover config tables ∅ [] _) as [[to_add|e] w2] eqn:Hd.
  2:{ injection Hrun as <- <-.
      apply discover_trace in Hd as (_ & logs & Ht & Hdbg). cbn [trace] in Ht.
      rewrite Ht in Hin. apply elem_of_cons in Hin as [Hin|Hin]; [discriminate Hin|].
      exfalso. exact (debug_logs_no_add _ _ _ Hdbg Hin). }
  injection Hrun as <- <-. cbn [trace] in Hin.
  pose proof Hd as Hd'.
  apply discover_trace in Hd' as (_ & logs & Ht & Hdbg). cbn [trace] in Ht.
  assert (Hlast : EvAddEntities l b = EvAddEntities to_add true).
  { rewrite Ht in Hin.
    apply elem_of_app in Hin as [Hin|Hin].
    - apply elem_of_cons in Hin as [Hin|Hin]; [discriminate Hin|].
      exfalso. exact (debug_logs_no_add _ _ _ Hdbg Hin).
    - apply elem_of_app in Hin as [Hin|Hin].
      + exfalso. exact (removals_no_add _ _ _ _ Hin).
      + now apply list_elem_of_singleton in Hin. }
  injection Hlast as -> ->.
  exists config, ip0, port0, tok, tables, w2. repeat split; assumption || reflexivity.
Qed.

(** ** Discovery: claims *)

(** C5.  When the configuration bag (the options merged on the stored
    configuration) lacks the host, the port or the token, the run logs one
    error and returns: no query is issued, no entity is removed from the
    registry and [async_add_entities] is not called. *)
Theorem missing_parameter_aborts db h ce config :
  merged_config h ce = Some config ->
  config !! "enpal_host_ip" = None \/ config !! "enpal_host_port" = None \/
  config !! "enpal_token" = None ->
  exists msg w',
    run_setup db h ce = (Ok tt, w') /\
    trace w' = [EvLog ERROR msg] /\
    Forall (fun ev => is_query ev = false /\ is_remove ev = false /\ is_add ev = false)
           (trace w') /\
    entity_registry (hass w') = entity_registry h.
Proof.
  intros Hm Hmiss.
  destruct (run_setup_missing db h ce config Hm Hmiss) as [msg Hr].
  exists msg. eexists. split; [exact Hr|]. cbn [trace hass stored entity_registry].
  repeat split. repeat constructor.
Qed.

Lemma missing_parameter_aborts_witness :
  exists msg w',
    run_setup (db_tables sample_tables) hass_without_token sample_entry = (Ok tt, w') /\
    trace w' = [EvLog ERROR msg] /\
    Forall (fun ev => is_query ev = false /\ is_remove ev = false /\ is_add ev = false)
           (trace w') /\
    entity_registry (hass w') = entity_registry hass_without_token.
Proof.
  apply (missing_parameter_aborts (db_tables sample_tables) hass_without_token
           sample_entry (delete "enpal_token" sample_config)).
  - vm_compute. reflexivity.
  - right. right. vm_compute. reflexivity.
Defined.

(** C6.  In a run that calls [async_add_entities], every entity registered
    for the configuration entry has been removed from the registry by then:
    the removals, one per such entity, come just before the call, which is
    the last event; afterwards the registry holds no entry of this
    configuration entry and every entry of the others. *)
Theorem previous_entities_removed_first db h ce r w' l b :
  run_setup db h ce = (r, w') ->
  EvAddEntities l b ∈ trace w' ->
  r = Ok tt /\
  (exists pre,
     trace w' = pre ++ removals h ce ++ [EvAddEntities l b] /\
     Forall (fun ev => is_remove ev = false /\ is_add ev = false) pre) /\
  (forall id e, entity_registry h !! id = Some e -> config_entry_id e = entry_id ce ->
     EvRemove id ∈ removals h ce /\ entity_registry (hass w') !! id = None) /\
  (forall id e, entity_registry h !! id = Some e -> config_entry_id e <> entry_id ce ->
     entity_registry (hass w') !! id = Some e) /\
  (forall id e, entity_registry (hass w') !! id = Some e ->
     config_entry_id e <> entry_id ce /\ entity_registry h !! id = Some e).
Proof.
  intros Hrun Hin.
  destruct (run_setup_registered _ _ _ _ _ _ _ Hrun Hin)
    as (config & ip0 & port0 & tok & tables & w2 & _ & _ & _ & _ & _ & Hd & -> & -> & ->).
  apply discover_trace in Hd as (_ & logs & Ht & Hdbg). cbn [trace] in Ht.
  cbn [trace hass entity_registry].
  split; [reflexivity|]. split.
  { exists (trace w2). split; [reflexivity|]. rewrite Ht.
    constructor; [split; reflexivity|].
    eapply Forall_impl; [exact Hdbg|].
    intros [[]| | |] Hev; try discriminate Hev; split; reflexivity. }
  split; [|split].
  - intros id e He Hid. split.
    + unfold removals. apply list_elem_of_fmap.
      assert (Hk : id ∈ (async_entries_for_config_entry (entity_registry h) (entry_id ce)).*1)
        by (apply entries_for_config_entry_spec; eauto).
      apply list_elem_of_fmap in Hk as (x & -> & Hx). eauto.
    + rewrite purged_lookup, He. now rewrite decide_True.
  - intros id e He Hid. rewrite purged_lookup, He. now rewrite decide_False.
  - intros id e. rewrite purged_lookup.
    destruct (entity_registry h !! id) as [e'|]; [|discriminate].
    destruct (decide _); [discriminate|]. now intros [= <-].
Qed.

Lemma previous_entities_removed_first_witness :
  (run_setup (db_tables sample_tables) sample_hass sample_entry).1 = Ok tt /\
  entity_registry (hass (run_setup (db_tables sample_tables) sample_hass sample_entry).2)
    !! "sensor.enpal_solar_production_power" = None /\
  entity_registry (hass (run_setup (db_tables sample_tables) sample_hass sample_entry).2)
    !! "sensor.kitchen_temperature"
  = Some {| config_entry_id := "entry-2"; unique_id := "kitchen" |}.
Proof.
  destruct (previous_entities_removed_first (db_tables sample_tables) sample_hass
              sample_entry _ _
              [EnpalSensor_init "Power.DC.Total" "inverter" "mdi:solar-power"
                 "Enpal Solar Production Power" (CStr "192.168.178.20") (CInt 8086)
                 (CStr "secret") "power" "W"] true
              (surjective_pairing _))
    as (Hr & _ & Hgone & Hkept & _).
  - vm_compute. repeat constructor.
  - split; [exact Hr|]. split.
    + refine (proj2 (Hgone _ _ _ _)); vm_compute; reflexivity.
    + refine (Hkept _ _ _ _); vm_compute; [reflexivity | discriminate].
Defined.

(** The loop only builds entities for keys of [FIELD_MAP]. *)
Lemma discover_fields_known config tables w l w' e :
  discover config tables ∅ [] w = (Ok l, w') ->
  e ∈ l ->
  is_Some (FIELD_MAP !! field e).
Proof.
  intros Hd He.
  apply discover_Ok in Hd as (_ & _ & new & Hl & Hnew). cbn [app] in Hl. subst new.
  specialize (Hnew (field e)). rewrite decide_False in Hnew by apply not_elem_of_empty.
  assert (Hmem : e ∈ filter (fun e' => field e' = field e) l)
    by (apply list_elem_of_filter; split; [reflexivity | exact He]).
  unfold discovered in Hnew.
  destruct (first_measurement (field e) tables);
    [| rewrite Hnew in Hmem; now apply elem_of_nil in Hmem].
  destruct (FIELD_MAP !! field e);
    [eauto | rewrite Hnew in Hmem; now apply elem_of_nil in Hmem].
Qed.

(** C2 (as amended).  In a run that registers entities, every field name
    gets at most one entity: exactly one, seeded with the measurement of the
    first result in query order that carries the name, when the name is a
    key of [FIELD_MAP] and some result carries it; none otherwise.  Later
    results with the same field name add nothing. *)
Theorem first_seen_measurement_wins db h ce r w' l b :
  run_setup db h ce = (r, w') ->
  EvAddEntities l b ∈ trace w' ->
  exists config ip0 port0 tok tables,
    merged_config h ce = Some config /\
    config !! "enpal_host_ip" = Some ip0 /\
    config !! "enpal_host_port" = Some port0 /\
    config !! "enpal_token" = Some tok /\
    db ip0 port0 tok QueryLast = Ok tables /\
    forall f,
      filter (fun e => field e = f) l
      = match first_measurement f tables, FIELD_MAP !! f with
        | Some m, Some cfg =>
            [EnpalSensor_init f m (icon cfg) (name cfg) ip0 port0 tok
               (device_class cfg) (unit_ cfg)]
        | _, _ => []
        end.
Proof.
  intros Hrun Hin.
  destruct (run_setup_registered _ _ _ _ _ _ _ Hrun Hin)
    as (config & ip0 & port0 & tok & tables & w2 & Hm & Hip & Hport & Htok & Hdb & Hd & _).
  exists config, ip0, port0, tok, tables. repeat (split; [assumption|]).
  apply discover_Ok in Hd as (_ & _ & new & Hl & Hnew). cbn [app] in Hl. subst new.
  intros f. specialize (Hnew f). rewrite decide_False in Hnew by apply not_elem_of_empty.
  unfold discovered in Hnew.
  destruct (first_measurement f tables) as [m|]; [|exact Hnew].
  destruct (FIELD_MAP !! f) as [cfg|]; [|exact Hnew].
  destruct Hnew as (e & He & ->). unfold entity_for in He.
  rewrite Hip, Hport, Htok in He. cbn in He. now injection He as <-.
Qed.

(** C2, the claim as stated fails: a field name that two results carry
    under different measurements gets no entity when [FIELD_MAP] does not
    know it. *)
Lemma duplicate_unknown_field_gets_no_entity :
  map (fun t => (values_field <$> head (records t), values_measurement <$> head (records t)))
      sample_tables
  = [ (Some (Some "Power.DC.Total"), Some (Some "inverter"));
      (Some (Some "Frequency.Grid"), Some (Some "inverter"));
      (Some (Some "Power.DC.Total"), Some (Some "powerSensor"));
      (Some (Some "Frequency.Grid"), Some (Some "powerSensor")) ] /\
  exists l,
    last (trace (run_setup (db_tables sample_tables) sample_hass sample_entry).2)
    = Some (EvAddEntities l true) /\
    filter (fun e => field e = "Frequency.Grid") l = [] /\
    map (fun e => (field e, measurement e)) l = [("Power.DC.Total", "inverter")].
Proof.
  split; [reflexivity|].
  eexists. split; [vm_compute; reflexivity|]. split; vm_compute; reflexivity.
Qed.

Lemma first_seen_measurement_wins_witness :
  filter (fun e => field e = "Power.DC.Total")
    [EnpalSensor_init "Power.DC.Total" "inverter" "mdi:solar-power"
       "Enpal Solar Production Power" (CStr "192.168.178.20") (CInt 8086)
       (CStr "secret") "power" "W"]
  = match first_measurement "Power.DC.Total" sample_tables,
          FIELD_MAP !! "Power.DC.Total" with
    | Some m, Some cfg =>
        [EnpalSensor_init "Power.DC.Total" m (icon cfg) (name cfg)
           (CStr "192.168.178.20") (CInt 8086) (CStr "secret")
           (device_class cfg) (unit_ cfg)]
    | _, _ => []
    end.
Proof.
  destruct (first_seen_measurement_wins (db_tables sample_tables) sample_hass
              sample_entry _ _
              [EnpalSensor_init "Power.DC.Total" "inverter" "mdi:solar-power"
                 "Enpal Solar Production Power" (CStr "192.168.178.20") (CInt 8086)
                 (CStr "secret") "power" "W"] true
              (surjective_pairing _))
    as (config & ip0 & port0 & tok & tables & Hm & Hip & Hport & Htok & Hdb & Hall).
  - vm_compute. repeat constructor.
  - vm_compute in Hm. injection Hm as <-.
    vm_compute in Hip. injection Hip as <-.
    vm_compute in Hport. injection Hport as <-.
    vm_compute in Htok. injection Htok as <-.
    unfold db_tables in Hdb. injection Hdb as <-.
    exact (Hall "Power.DC.Total").
Defined.

(** ** The legacy icon rule and discovered entities *)

Lemma run_update_field env s : field (self (run_update env s).2) = field s.
Proof.
  rewrite run_update_eq. cbv zeta.
  destruct (polled env s) as [f|e].
  - cbn [snd self]. now destruct (succeeded_facts env f s) as (_ & -> & _).
  - destruct (is_Exception _); cbn [snd self]; [|reflexivity].
    now destruct (failed_facts env s) as (_ & -> & _).
Qed.

Lemma run_update_icon env s :
  field s <> "Percent.Storage.Level" ->
  _attr_icon (self (run_update env s).2) = _attr_icon s.
Proof.
  intros Hf. rewrite run_update_eq. cbv zeta.
  destruct (polled env s) as [f|e].
  - cbn [snd self]. rewrite succeeded_eq, bool_decide_eq_false_2 by exact Hf.
    now destruct (refreshed_facts env f s) as (_ & _ & -> & _).
  - destruct (is_Exception _); cbn [snd self]; [|reflexivity].
    now destruct (failed_facts env s) as (_ & _ & -> & _).
Qed.

Lemma polls_icon envs : forall s,
  field s <> "Percent.Storage.Level" ->
  _attr_icon (polls envs s) = _attr_icon s /\ field (polls envs s) = field s.
Proof.
  unfold polls. induction envs as [|env envs IH]; intros s Hf; [split; reflexivity|].
  cbn [foldl]. destruct (IH (self (run_update env s).2)) as [Hi Hfld].
  - now rewrite run_update_field.
  - rewrite Hi, Hfld, run_update_field, run_update_icon by exact Hf. split; reflexivity.
Qed.

(** C10.  'Percent.Storage.Level' is not a key of [FIELD_MAP]; the field of
    every entity that discovery hands to [async_add_entities] is a key of
    it, hence is not 'Percent.Storage.Level'; and no series of polls changes
    the icon of such an entity: the battery tier selection is never
    reached. *)
Theorem legacy_icon_rule_unreachable db h ce r w' l b e :
  run_setup db h ce = (r, w') ->
  EvAddEntities l b ∈ trace w' ->
  e ∈ l ->
  FIELD_MAP !! "Percent.Storage.Level" = None /\
  is_Some (FIELD_MAP !! field e) /\
  field e <> "Percent.Storage.Level" /\
  forall envs, _attr_icon (polls envs e) = _attr_icon e /\
               field (polls envs e) = field e.
Proof.
  intros Hrun Hin He.
  assert (Hlegacy : FIELD_MAP !! "Percent.Storage.Level" = None) by (vm_compute; reflexivity).
  destruct (run_setup_registered _ _ _ _ _ _ _ Hrun Hin)
    as (config & ip0 & port0 & tok & tables & w2 & _ & _ & _ & _ & _ & Hd & _).
  pose proof (discover_fields_known _ _ _ _ _ _ Hd He) as Hkey.
  assert (Hne : field e <> "Percent.Storage.Level").
  { intros Heq. rewrite Heq, Hlegacy in Hkey. now destruct Hkey. }
  split; [exact Hlegacy|]. split; [exact Hkey|]. split; [exact Hne|].
  intros envs. now apply polls_icon.
Qed.

Lemma legacy_icon_rule_unreachable_witness :
  let e := EnpalSensor_init "Power.DC.Total" "inverter" "mdi:solar-power"
             "Enpal Solar Production Power" (CStr "192.168.178.20") (CInt 8086)
             (CStr "secret") "power" "W" in
  field e <> "Percent.Storage.Level" /\
  _attr_icon (polls [env_of (db_value (PInt 55)); env_of db_down] e) = "mdi:solar-power".
Proof.
  intros e.
  destruct (legacy_icon_rule_unreachable (db_tables sample_tables) sample_hass
              sample_entry _ _ [e] true e (surjective_pairing _))
    as (_ & _ & Hne & Hpolls).
  - vm_compute. repeat constructor.
  - apply list_elem_of_singleton. reflexivity.
  - split; [exact Hne|]. exact (proj1 (Hpolls _)).
Defined.

(** * Further properties of the updater *)

Lemma same_identity_refl s : same_identity s s.
Proof. repeat split. Qed.

Lemma same_identity_trans s1 s2 s3 :
  same_identity s1 s2 -> same_identity s2 s3 -> same_identity s1 s3.
Proof.
  unfold same_identity. intros H12 H23.
  decompose [and] H12. decompose [and] H23. repeat split; congruence.
Qed.

Lemma set_icon_identity c icon s s' :
  same_identity s s' /\ _state s' = _state s ->
  same_identity s (if c : bool then set_icon icon s' else s') /\
  _state (if c then set_icon icon s' else s') = _state s.
Proof. destruct c; [|exact id]. destruct s'. exact id. Qed.

Lemma tier_identity hi lo icon v s s' :
  same_identity s s' /\ _state s' = _state s ->
  same_identity s (tier hi lo icon v s') /\ _state (tier hi lo icon v s') = _state s.
Proof. unfold tier. apply set_icon_identity. Qed.

Lemma battery_icons_identity v s :
  same_identity s (battery_icons v s) /\ _state (battery_icons v s) = _state s.
Proof.
  unfold battery_icons. cbv zeta.
  apply set_icon_identity. do 9 apply tier_identity. apply set_icon_identity.
  split; [apply same_identity_refl | reflexivity].
Qed.

Lemma kept_native_value v s s' : kept s s' -> kept s (set_native_value v s').
Proof. destruct s'. exact id. Qed.

Lemma kept_device_class v s s' : kept s s' -> kept s (set_device_class v s').
Proof. destruct s'. exact id. Qed.

Lemma kept_native_unit v s s' : kept s s' -> kept s (set_native_unit_of_measurement v s').
Proof. destruct s'. exact id. Qed.

Lemma kept_state_class v s s' : kept s s' -> kept s (set_state_class v s').
Proof. destruct s'. exact id. Qed.

Lemma kept_attr_put k v s s' : kept s s' -> kept s (attr_put k v s').
Proof. destruct s'. exact id. Qed.

Lemma kept_reset_daily env u s s' : kept s s' -> kept s (reset_daily env u s').
Proof.
  intros H. unfold reset_daily. destruct (bool_decide _); [|exact H].
  now apply kept_state_class, kept_attr_put.
Qed.

Lemma refreshed_identity env f s :
  same_identity s (refreshed env f s) /\ _state (refreshed env f s) = _state s.
Proof.
  unfold refreshed.
  do 2 apply kept_reset_daily. do 3 apply kept_attr_put.
  apply kept_state_class, kept_native_unit, kept_device_class, kept_native_value.
  split; [apply same_identity_refl | reflexivity].
Qed.

Lemma succeeded_identity env f s :
  same_identity s (succeeded env f s) /\ _state (succeeded env f s) = _state s.
Proof.
  rewrite succeeded_eq.
  destruct (refreshed_identity env f s) as [Hr Hs].
  destruct (bool_decide _); [|split; assumption].
  destruct (battery_icons_identity (py_round2 f) (refreshed env f s)) as [Hb Hs'].
  split; [eapply same_identity_trans; eassumption | congruence].
Qed.

Lemma failed_identity env s :
  same_identity s (failed env s) /\ _state (failed env s) = Some "Error".
Proof. destruct s. repeat split. Qed.

Lemma run_update_identity env s : same_identity s (self (run_update env s).2).
Proof.
  rewrite run_update_eq. cbv zeta. destruct (polled env s) as [f|e].
  - apply succeeded_identity.
  - destruct (is_Exception _); [apply failed_identity | apply same_identity_refl].
Qed.

Lemma polls_app envs1 envs2 s : polls (envs1 ++ envs2) s = polls envs2 (polls envs1 s).
Proof. unfold polls. apply foldl_app. Qed.

Lemma polls_identity envs : forall s, same_identity s (polls envs s).
Proof.
  induction envs as [|env envs IH]; intros s; [apply same_identity_refl|].
  change (polls (env :: envs) s) with (polls envs (self (run_update env s).2)).
  eapply same_identity_trans; [apply run_update_identity | apply IH].
Qed.

Lemma polled_identity env s s' : same_identity s s' -> polled env s' = polled env s.
Proof.
  unfold same_identity, polled, update_query.
  intros (-> & -> & -> & -> & -> & _). reflexivity.
Qed.

(** X1.  No series of polls changes what the entity is: its field,
    measurement, connection parameters, descriptor class and unit, name and
    unique id stay as the constructor set them. *)
Theorem polls_keep_identity envs f m ic nm ip0 port0 tok dc u :
  let s := polls envs (EnpalSensor_init f m ic nm ip0 port0 tok dc u) in
  field s = f /\ measurement s = m /\
  ip s = ip0 /\ port s = port0 /\ token s = tok /\
  enpal_device_class s = dc /\ sensor_unit s = u /\
  _attr_name s = nm /\
  _attr_unique_id s = "enpal_" +:+ m +:+ "_" +:+ f.
Proof.
  intros s. exact (polls_identity envs (EnpalSensor_init f m ic nm ip0 port0 tok dc u)).
Qed.

Lemma run_update_state env s :
  _state (self (run_update env s).2)
  = match polled env s with
    | Raise e => if is_Exception (exn_cls e) then Some "Error" else _state s
    | Ok _ => _state s
    end.
Proof.
  rewrite run_update_eq. cbv zeta. destruct (polled env s) as [f|e].
  - apply succeeded_identity.
  - destruct (is_Exception _); [apply failed_identity | reflexivity].
Qed.

Lemma polls_state_sticky envs : forall s,
  _state s = Some "Error" -> _state (polls envs s) = Some "Error".
Proof.
  induction envs as [|env envs IH]; intros s Hs; [exact Hs|].
  change (polls (env :: envs) s) with (polls envs (self (run_update env s).2)).
  apply IH. rewrite run_update_state.
  destruct (polled env s) as [f|e]; [exact Hs|].
  destruct (is_Exception _); [reflexivity | exact Hs].
Qed.

(** X2.  Once a poll has failed with a caught exception, [_state] is
    'Error' and no later poll, successful or not, sets it back: the method
    assigns [_state] in the handler only. *)
Theorem state_stays_Error env envs s e st0 :
  update_try env (start s) = (Raise e, st0) ->
  is_Exception (exn_cls e) = true ->
  _state (polls (env :: envs) s) = Some "Error".
Proof.
  intros Htry Hcls.
  apply update_try_Raise_inv in Htry as [Hp _].
  change (polls (env :: envs) s) with (polls envs (self (run_update env s).2)).
  apply polls_state_sticky. now rewrite run_update_state, Hp, Hcls.
Qed.

Lemma state_stays_Error_witness :
  _state (polls [env_of db_down; env_of (db_value (PInt 7))] sample_sensor) = Some "Error" /\
  _attr_native_value (polls [env_of db_down; env_of (db_value (PInt 7))] sample_sensor)
  = Some (float_of_Z 7).
Proof.
  split.
  - apply (state_stays_Error (env_of db_down) [env_of (db_value (PInt 7))] sample_sensor
             (Exn OtherException "Connection refused")
             {| self := sample_sensor;
                emitted := [EvQuery (CStr "192.168.178.20") (CInt 8086) (CStr "secret")
                              (QueryLastOf "inverter" "Energy.Production.Total.Day")] |}).
    + vm_compute. reflexivity.
    + reflexivity.
  - vm_compute. reflexivity.
Defined.

(** X3.  Every poll of an entity, whatever earlier polls did to it, issues
    exactly one query: for the measurement and the field it was constructed
    with, at the connection it was constructed with.  Nothing else is
    emitted but the error log of a caught exception. *)
Theorem one_query_per_poll envs env f m ic nm ip0 port0 tok dc u :
  let s := polls envs (EnpalSensor_init f m ic nm ip0 port0 tok dc u) in
  exists logs,
    emitted (run_update env s).2 = EvQuery ip0 port0 tok (QueryLastOf m f) :: logs /\
    (logs = [] \/
     exists e, logs = [EvLog ERROR (exn_str e)] /\ (run_update env s).1 = Ok tt /\
               polled env s = Raise e /\ is_Exception (exn_cls e) = true).
Proof.
  intros s.
  destruct (polls_identity envs (EnpalSensor_init f m ic nm ip0 port0 tok dc u))
    as (Hf & Hm & Hip & Hport & Htok & _).
  fold s in Hf, Hm, Hip, Hport, Htok. cbn in Hf, Hm, Hip, Hport, Htok.
  rewrite run_update_eq. cbv zeta. unfold update_query.
  rewrite Hf, Hm, Hip, Hport, Htok.
  destruct (polled env s) as [x|e]; [exists []; split; [reflexivity | now left]|].
  destruct (is_Exception (exn_cls e)) eqn:Hcls.
  - eexists. split; [reflexivity|]. right. exists e. repeat split. exact Hcls.
  - exists []. split; [reflexivity | now left].
Qed.

Lemma run_update_outcome env s s' :
  same_identity s s' -> (run_update env s').1 = (run_update env s).1.
Proof.
  intros Hid. rewrite !run_update_eq. cbv zeta.
  rewrite (polled_identity env s s' Hid).
  destruct (polled env s) as [f|e]; [reflexivity|].
  destruct (is_Exception _); reflexivity.
Qed.

Lemma run_update_value env s s' :
  same_identity s s' ->
  (run_update env s).1 = Ok tt ->
  _attr_native_value (self (run_update env s').2)
  = _attr_native_value (self (run_update env s).2).
Proof.
  intros Hid. rewrite !run_update_eq. cbv zeta.
  rewrite (polled_identity env s s' Hid).
  destruct (polled env s) as [f|e].
  - intros _. cbn [snd self].
    destruct (succeeded_facts env f s) as (-> & _).
    now destruct (succeeded_facts env f s') as (-> & _).
  - destruct (is_Exception _); [|discriminate]. intros _. cbn [snd self].
    destruct (failed_facts env s) as (-> & _).
    now destruct (failed_facts env s') as (-> & _).
Qed.

(** X4.  Nothing is cached across polls: when a poll returns, the value it
    leaves depends on that poll's query alone, not on the polls before it. *)
Theorem value_depends_on_last_poll envs env s :
  (run_update env s).1 = Ok tt ->
  (run_update env (polls envs s)).1 = Ok tt /\
  _attr_native_value (polls (envs ++ [env]) s)
  = _attr_native_value (self (run_update env s).2).
Proof.
  intros Hok. pose proof (polls_identity envs s) as Hid. split.
  - now rewrite (run_update_outcome env s _ Hid).
  - rewrite polls_app. change (polls [env] (polls envs s))
      with (self (run_update env (polls envs s)).2).
    now apply run_update_value.
Qed.

Lemma value_depends_on_last_poll_witness :
  _attr_native_value
    (polls ([env_of db_down; env_of (db_value (PInt 3))] ++ [env_of (db_value (PInt 7))])
       sample_sensor)
  = Some (float_of_Z 7).
Proof.
  refine (proj2 (value_depends_on_last_poll
                   [env_of db_down; env_of (db_value (PInt 3))]
                   (env_of (db_value (PInt 7))) sample_sensor _)).
  vm_compute. reflexivity.
Defined.

Lemma run_update_last_reset env s :
  is_energy_unit (sensor_unit s) = false ->
  _attr_extra_state_attributes (self (run_update env s).2) !! "last_reset"
  = _attr_extra_state_attributes s !! "last_reset".
Proof.
  intros Hu. rewrite run_update_eq. cbv zeta. destruct (polled env s) as [f|e].
  - cbn [snd self]. destruct (succeeded_facts env f s) as (_ & _ & _ & ->).
    unfold attributes_after_success. rewrite Hu.
    now rewrite !lookup_insert_ne by done.
  - destruct (is_Exception _); cbn [snd self]; [|reflexivity].
    destruct (failed_facts env s) as (_ & _ & _ & ->).
    now rewrite lookup_insert_ne by done.
Qed.

(** X5.  An entity whose unit is neither "kWh" nor "Wh" never gets a
    [last_reset] attribute, however often it is polled. *)
Theorem no_last_reset_without_energy_unit envs f m ic nm ip0 port0 tok dc u :
  u <> "kWh" -> u <> "Wh" ->
  _attr_extra_state_attributes
    (polls envs (EnpalSensor_init f m ic nm ip0 port0 tok dc u)) !! "last_reset" = None.
Proof.
  intros Hk Hw.
  assert (Hgen : forall s, is_energy_unit (sensor_unit s) = false ->
            _attr_extra_state_attributes (polls envs s) !! "last_reset"
            = _attr_extra_state_attributes s !! "last_reset").
  { induction envs as [|env envs IH]; intros s Hu; [reflexivity|].
    change (polls (env :: envs) s) with (polls envs (self (run_update env s).2)).
    rewrite IH.
    - now apply run_update_last_reset.
    - destruct (run_update_identity env s) as (_ & _ & _ & _ & _ & _ & -> & _). exact Hu. }
  rewrite Hgen; [reflexivity|].
  unfold is_energy_unit. cbn. now rewrite !bool_decide_eq_false_2 by done.
Qed.

Lemma no_last_reset_without_energy_unit_witness :
  _attr_extra_state_attributes
    (polls [env_of (db_value (PInt 55)); env_of db_down] legacy_sensor) !! "last_reset"
  = None.
Proof.
  apply (no_last_reset_without_energy_unit
           [env_of (db_value (PInt 55)); env_of db_down]
           "Percent.Storage.Level" "inverter" "mdi:battery" "Enpal Battery Percent"
           (CStr "192.168.178.20") (CInt 8086) (CStr "secret") "battery" "%");
    discriminate.
Defined.

(** * Further properties of the icon rule *)

Lemma SFltb_not_SFleb a b : SFltb a b = true -> SFleb b a = false.
Proof.
  unfold SFltb, SFleb.
  destruct a as [sa|sa| |sa ma ea], b as [sb|sb| |sb mb eb];
    try destruct sa; try destruct sb;
    rewrite ?SFcompare_finite_pos, ?SFcompare_finite_neg;
    try (cbn; congruence);
    intros H1; order_cases.
Qed.

Lemma SFltb_SFleb a b : SFltb a b = true -> SFleb a b = true.
Proof. unfold SFltb, SFleb. now destruct (SFcompare a b) as [[]|]. Qed.

Lemma py_le_false_above v c hi :
  py_lt c v = true -> SFleb hi c = true -> py_le v hi = false.
Proof.
  intros Hv Hc. unfold py_le. destruct (SFleb v hi) eqn:E; [|reflexivity].
  apply SFltb_not_SFleb in Hv. now rewrite (SFleb_trans _ _ _ E Hc) in Hv.
Qed.

Lemma py_ge_false_under v c lo :
  py_lt v c = true -> SFleb c lo = true -> py_ge v lo = false.
Proof.
  intros Hv Hc. unfold py_ge. destruct (SFleb lo v) eqn:E; [|reflexivity].
  apply SFltb_not_SFleb in Hv. now rewrite (SFleb_trans _ _ _ Hc E) in Hv.
Qed.

Lemma py_ge_false_up v a b :
  py_ge v a = false -> SFleb a b = true -> py_ge v b = false.
Proof.
  unfold py_ge. intros Hv Hab. destruct (SFleb b v) eqn:E; [|reflexivity].
  now rewrite (SFleb_trans _ _ _ Hab E) in Hv.
Qed.

Lemma py_eq_py_ge v x : py_eq v x = true -> py_ge v x = true.
Proof. apply SFeqb_SFleb. Qed.

Lemma tier_miss_lo hi lo icon v s :
  py_ge v (float_of_Z lo) = false -> tier hi lo icon v s = s.
Proof. intros H. unfold tier. now rewrite H, andb_false_r. Qed.

Lemma tier_miss_hi hi lo icon v s :
  py_le v (float_of_Z hi) = false -> tier hi lo icon v s = s.
Proof. intros H. unfold tier. now rewrite H. Qed.

Lemma battery_icons_below_10 v s :
  py_ge v (float_of_Z 10) = false -> battery_icons v s = s.
Proof.
  intros H. unfold battery_icons. rewrite H.
  assert (H100 : py_eq v (float_of_Z 100) = false).
  { destruct (py_eq v (float_of_Z 100)) eqn:E; [|reflexivity].
    apply py_eq_py_ge in E.
    now rewrite (py_ge_false_up v _ (float_of_Z 100) H eq_refl) in E. }
  rewrite H100.
  now rewrite !tier_miss_lo by (apply (py_ge_false_up v _ _ H); reflexivity).
Qed.

(** X6.  After a finished [try] block whose value is not at least 10 (a
    smaller value, or NaN), the icon is the one the entity had: none of the
    assignments of the battery rule is taken. *)
Theorem icon_unchanged_below_10 env s st v :
  update_try env (start s) = (Ok tt, st) ->
  _attr_native_value (self st) = Some v ->
  py_ge v (float_of_Z 10) = false ->
  _attr_icon (self st) = _attr_icon s.
Proof.
  intros Htry Hv Hlow.
  apply update_try_Ok_inv in Htry as (f & _ & Hst). rewrite Hst in *.
  destruct (succeeded_facts env f s) as (Hv' & _).
  assert (v = py_round2 f) as -> by congruence.
  rewrite succeeded_eq. destruct (bool_decide _).
  - rewrite battery_icons_below_10 by exact Hlow.
    now destruct (refreshed_facts env f s) as (_ & _ & -> & _).
  - now destruct (refreshed_facts env f s) as (_ & _ & -> & _).
Qed.

Lemma icon_unchanged_below_10_witness :
  _attr_icon (self (run_update (env_of (db_value (PInt 9))) legacy_sensor).2)
  = "mdi:battery".
Proof.
  refine (icon_unchanged_below_10 (env_of (db_value (PInt 9))) legacy_sensor
            _ (float_of_Z 9) _ _ _).
  - vm_compute. reflexivity.
  - vm_compute. reflexivity.
  - vm_compute. reflexivity.
Defined.

Ltac miss_tier L U :=
  match goal with
  | |- context [tier ?hi ?lo ?icon ?v ?s] =>
      first [ rewrite (tier_miss_hi hi lo icon v s)
                by (apply (py_le_false_above v _ _ L); reflexivity)
            | rewrite (tier_miss_lo hi lo icon v s)
                by (apply (py_ge_false_under v _ _ U); reflexivity) ]
  end.

Lemma battery_icons_gap v s k :
  1 <= k <= 9 ->
  py_lt (float_of_Z (10 * k + 9)) v = true ->
  py_lt v (float_of_Z (10 * k + 10)) = true ->
  _attr_icon (battery_icons v s) = "mdi:battery-outline".
Proof.
  intros Hk L U.
  assert (Hcases : k = 1 \/ k = 2 \/ k = 3 \/ k = 4 \/ k = 5 \/ k = 6 \/ k = 7 \/
                   k = 8 \/ k = 9) by lia.
  unfold battery_icons.
  decompose [or] Hcases; subst k;
    match type of L with py_lt (float_of_Z ?a) _ = _ =>
      let a' := eval vm_compute in a in change a with a' in L end;
    match type of U with py_lt _ (float_of_Z ?a) = _ =>
      let a' := eval vm_compute in a in change a with a' in U end;
    (assert (H100 : py_eq v (float_of_Z 100) = false)
      by (destruct (py_eq v (float_of_Z 100)) eqn:E; [|reflexivity];
          apply py_eq_py_ge in E;
          now rewrite (py_ge_false_under v _ (float_of_Z 100) U eq_refl) in E));
    (assert (H10 : py_ge v (float_of_Z 10) = true)
      by (unfold py_ge;
          match type of L with py_lt ?c _ = _ => apply (SFleb_trans _ c) end;
          [reflexivity | apply SFltb_SFleb, L]));
    rewrite H100, H10;
    repeat miss_tier L U;
    reflexivity.
Qed.

Lemma battery_icons_above_100 v s :
  py_lt (float_of_Z 100) v = true ->
  _attr_icon (battery_icons v s) = "mdi:battery-outline".
Proof.
  intros L. unfold battery_icons.
  assert (H100 : py_eq v (float_of_Z 100) = false).
  { destruct (py_eq v (float_of_Z 100)) eqn:E; [|reflexivity].
    apply SFltb_not_SFleb in L. unfold py_eq in E.
    assert (SFleb v (float_of_Z 100) = true).
    { unfold SFleb, SFeqb in *. now destruct (SFcompare v _) as [[]|]. }
    congruence. }
  assert (H10 : py_ge v (float_of_Z 10) = true)
    by (unfold py_ge; apply (SFleb_trans _ (float_of_Z 100)); [reflexivity | now apply SFltb_SFleb]).
  rewrite H100, H10.
  now rewrite !tier_miss_hi by (apply (py_le_false_above v _ _ L); reflexivity).
Qed.

(** X7.  For the legacy field, a value strictly between two tiers
    ([10*k + 9 < v < 10*k + 10], as 19.5 is) or above 100 gives the outline
    icon: the tiers test integer bounds, and the first assignment stands. *)
Theorem outline_icon_between_tiers env s st v :
  update_try env (start s) = (Ok tt, st) ->
  field s = "Percent.Storage.Level" ->
  _attr_native_value (self st) = Some v ->
  (forall k, 1 <= k <= 9 ->
     py_lt (float_of_Z (10 * k + 9)) v = true ->
     py_lt v (float_of_Z (10 * k + 10)) = true ->
     _attr_icon (self st) = "mdi:battery-outline") /\
  (py_lt (float_of_Z 100) v = true -> _attr_icon (self st) = "mdi:battery-outline").
Proof.
  intros Htry Hf Hv.
  apply update_try_Ok_inv in Htry as (f & _ & Hst). rewrite Hst in *.
  destruct (succeeded_facts env f s) as (Hv' & _).
  assert (v = py_round2 f) as -> by congruence.
  rewrite succeeded_eq, bool_decide_eq_true_2 by exact Hf.
  split.
  - intros k. apply battery_icons_gap.
  - apply battery_icons_above_100.
Qed.

Lemma outline_icon_between_tiers_witness :
  _attr_icon
    (self (run_update (env_of (db_value (PFloat (float_of_frac false 195 10))))
             legacy_sensor).2)
  = "mdi:battery-outline".
Proof.
  refine (proj1 (outline_icon_between_tiers
                   (env_of (db_value (PFloat (float_of_frac false 195 10))))
                   legacy_sensor _ (float_of_frac false 195 10) _ _ _) 1 _ _ _).
  - vm_compute. reflexivity.
  - reflexivity.
  - vm_compute. reflexivity.
  - lia.
  - vm_compute. reflexivity.
  - vm_compute. reflexivity.
Defined.

(** * Further properties of discovery *)

Lemma append_cons c a x : String c a +:+ x = String c (a +:+ x).
Proof. reflexivity. Qed.

Lemma append_nil x : "" +:+ x = x.
Proof. reflexivity. Qed.

Lemma no_underscore_app a f : no_underscore (a +:+ String underscore f) = false.
Proof.
  induction a as [|c a IH].
  - reflexivity.
  - rewrite append_cons. cbn [no_underscore]. now rewrite IH, andb_false_r.
Qed.

(** The part after the last underscore is determined by the whole. *)
Lemma after_last_underscore a : forall a' f f',
  no_underscore f = true -> no_underscore f' = true ->
  a +:+ String underscore f = a' +:+ String underscore f' -> f = f'.
Proof.
  induction a as [|c a IH]; intros [|c' a'] f f' Hf Hf' Heq;
    rewrite ?append_cons, ?append_nil in Heq.
  - now injection Heq.
  - injection Heq as _ Heq. rewrite Heq in Hf.
    now rewrite no_underscore_app in Hf.
  - injection Heq as _ Heq. rewrite <- Heq in Hf'.
    now rewrite no_underscore_app in Hf'.
  - injection Heq as _ Heq. exact (IH a' f f' Hf Hf' Heq).
Qed.

Lemma after_prefix p : forall x y, p +:+ x = p +:+ y -> x = y.
Proof.
  induction p as [|c p IH]; intros x y Heq; rewrite ?append_cons, ?append_nil in Heq.
  - exact Heq.
  - injection Heq as Heq. now apply IH.
Qed.

Lemma FIELD_MAP_keys_no_underscore f cfg :
  FIELD_MAP !! f = Some cfg -> no_underscore f = true.
Proof.
  intros H. unfold FIELD_MAP in H. apply elem_of_list_to_map_2 in H.
  repeat (apply elem_of_cons in H as [H|H]; [injection H as -> _; reflexivity|]).
  now apply elem_of_nil in H.
Qed.

Lemma NoDup_by_filter {A} (g : A -> string) (l : list A) :
  (forall f, (length (filter (fun e => g e = f) l) <= 1)%nat) -> NoDup (g <$> l).
Proof.
  induction l as [|x l IH]; intros Hall; [constructor|].
  cbn [fmap list_fmap]. apply NoDup_cons. split.
  - intros Hin. apply list_elem_of_fmap in Hin as (y & Hy & Hin).
    specialize (Hall (g x)). rewrite filter_cons_True in Hall by reflexivity.
    assert (Hy' : y ∈ filter (fun e => g e = g x) l)
      by (apply list_elem_of_filter; split; [now symmetry | exact Hin]).
    destruct (filter (fun e => g e = g x) l); [now apply elem_of_nil in Hy'|].
    cbn in Hall. lia.
  - apply IH. intros f. specialize (Hall f).
    destruct (decide (g x = f)) as [Hx|Hx].
    + rewrite filter_cons_True in Hall by exact Hx. cbn in Hall. lia.
    + now rewrite filter_cons_False in Hall by exact Hx.
Qed.

Lemma NoDup_fmap_by {A} (g h : A -> string) (l : list A) :
  NoDup (g <$> l) ->
  (forall x y, x ∈ l -> y ∈ l -> h x = h y -> g x = g y) ->
  NoDup (h <$> l).
Proof.
  induction l as [|x l IH]; intros Hnd Hinj; [constructor|].
  cbn [fmap list_fmap] in *. apply NoDup_cons in Hnd as [Hx Hnd].
  apply NoDup_cons. split.
  - intros Hin. apply list_elem_of_fmap in Hin as (y & Hy & Hin).
    apply Hx. apply list_elem_of_fmap. exists y. split; [|exact Hin].
    apply Hinj; [apply elem_of_cons; now left | apply elem_of_cons; now right | exact Hy].
  - apply IH; [exact Hnd|]. intros a b Ha Hb.
    apply Hinj; apply elem_of_cons; now right.
Qed.

(** What a run hands to [async_add_entities]: per field name, nothing or
    the one entity built from the first result and the descriptor. *)
Lemma added_per_field db h ce r w' l b :
  run_setup db h ce = (r, w') ->
  EvAddEntities l b ∈ trace w' ->
  exists config tables,
    merged_config h ce = Some config /\
    forall f, discovered config tables f (filter (fun e => field e = f) l).
Proof.
  intros Hrun Hin.
  destruct (run_setup_registered _ _ _ _ _ _ _ Hrun Hin)
    as (config & ip0 & port0 & tok & tables & w2 & Hm & _ & _ & _ & _ & Hd & _).
  exists config, tables. split; [exact Hm|].
  apply discover_Ok in Hd as (_ & _ & new & Hl & Hnew). cbn [app] in Hl. subst new.
  intros f. specialize (Hnew f). now rewrite decide_False in Hnew by apply not_elem_of_empty.
Qed.

Lemma added_entity db h ce r w' l b e :
  run_setup db h ce = (r, w') ->
  EvAddEntities l b ∈ trace w' ->
  e ∈ l ->
  exists config m cfg,
    FIELD_MAP !! field e = Some cfg /\
    entity_for config (field e) m cfg = Some e.
Proof.
  intros Hrun Hin He.
  destruct (added_per_field _ _ _ _ _ _ _ Hrun Hin) as (config & tables & _ & Hall).
  specialize (Hall (field e)).
  assert (Hmem : e ∈ filter (fun e' => field e' = field e) l)
    by (apply list_elem_of_filter; split; [reflexivity | exact He]).
  unfold discovered in Hall.
  destruct (first_measurement (field e) tables) as [m|];
    [| rewrite Hall in Hmem; now apply elem_of_nil in Hmem].
  destruct (FIELD_MAP !! field e) as [cfg|];
    [| rewrite Hall in Hmem; now apply elem_of_nil in Hmem].
  destruct Hall as (e0 & He0 & Hl). rewrite Hl in Hmem.
  apply list_elem_of_singleton in Hmem. subst e0. eauto.
Qed.

Lemma entity_for_unique_id config f m cfg e :
  entity_for config f m cfg = Some e ->
  _attr_unique_id e = "enpal_" +:+ m +:+ "_" +:+ f.
Proof.
  unfold entity_for.
  destruct (config !! "enpal_host_ip"); [|discriminate].
  destruct (config !! "enpal_host_port"); [|discriminate].
  destruct (config !! "enpal_token"); [|discriminate].
  cbn. now intros [= <-].
Qed.

Lemma added_fields_NoDup db h ce r w' l b :
  run_setup db h ce = (r, w') ->
  EvAddEntities l b ∈ trace w' ->
  NoDup (field <$> l).
Proof.
  intros Hrun Hin.
  destruct (added_per_field _ _ _ _ _ _ _ Hrun Hin) as (config & tables & _ & Hall).
  apply NoDup_by_filter. intros f. specialize (Hall f). unfold discovered in Hall.
  destruct (first_measurement f tables); [|rewrite Hall; cbn; lia].
  destruct (FIELD_MAP !! f); [|rewrite Hall; cbn; lia].
  destruct Hall as (? & _ & ->). cbn. lia.
Qed.

(** X8.  The entities a run hands to [async_add_entities] have pairwise
    different field names and pairwise different unique ids: the unique id
    ends in the field name, and no key of [FIELD_MAP] holds an underscore. *)
Theorem added_entities_have_distinct_ids db h ce r w' l b :
  run_setup db h ce = (r, w') ->
  EvAddEntities l b ∈ trace w' ->
  NoDup (field <$> l) /\ NoDup (_attr_unique_id <$> l).
Proof.
  intros Hrun Hin.
  pose proof (added_fields_NoDup _ _ _ _ _ _ _ Hrun Hin) as Hfields.
  split; [exact Hfields|].
  apply (NoDup_fmap_by field); [exact Hfields|].
  intros x y Hx Hy Hid.
  destruct (added_entity _ _ _ _ _ _ _ _ Hrun Hin Hx) as (cx & mx & cfgx & Hkx & Hex).
  destruct (added_entity _ _ _ _ _ _ _ _ Hrun Hin Hy) as (cy & my & cfgy & Hky & Hey).
  apply entity_for_unique_id in Hex, Hey. rewrite Hex, Hey in Hid.
  apply after_prefix in Hid.
  eapply (after_last_underscore mx my); [| | exact Hid].
  - exact (FIELD_MAP_keys_no_underscore _ _ Hkx).
  - exact (FIELD_MAP_keys_no_underscore _ _ Hky).
Qed.

Lemma added_entities_have_distinct_ids_witness :
  NoDup (_attr_unique_id <$>
           [EnpalSensor_init "Power.DC.Total" "inverter" "mdi:solar-power"
              "Enpal Solar Production Power" (CStr "192.168.178.20") (CInt 8086)
              (CStr "secret") "power" "W"]).
Proof.
  refine (proj2 (added_entities_have_distinct_ids (db_tables sample_tables) sample_hass
                   sample_entry _ _ _ true (surjective_pairing _) _)).
  vm_compute. repeat constructor.
Defined.

Lemma discover_length config tables :
  forall enc acc w l w',
    discover config tables enc acc w = (Ok l, w') ->
    (length l <= length acc + length tables)%nat.
Proof.
  induction tables as [|table rest IH]; intros enc acc w l w' Hrun.
  - cbn in Hrun. injection Hrun as <- _. lia.
  - cbn [discover] in Hrun. cbv [bind lift index0 getitem] in Hrun.
    cbn [length].
    destruct (records table) as [|rec rs]; [discriminate Hrun|].
    destruct (values_field rec) as [fld|]; [|discriminate Hrun].
    destruct (values_measurement rec) as [meas|]; [|discriminate Hrun].
    destruct (decide (fld ∈ enc)); [apply IH in Hrun; lia|].
    destruct (FIELD_MAP !! fld).
    + destruct (config !! "enpal_host_ip"); [|discriminate Hrun].
      destruct (config !! "enpal_host_port"); [|discriminate Hrun].
      destruct (config !! "enpal_token"); [|discriminate Hrun].
      apply IH in Hrun. rewrite length_app in Hrun. cbn [length] in Hrun. lia.
    + cbv [tell modify] in Hrun. apply IH in Hrun. lia.
Qed.

Lemma FIELD_MAP_size : size FIELD_MAP = 31%nat.
Proof. vm_compute. reflexivity. Qed.

(** X9.  A run registers at most one entity per result table that the
    query at the configured connection returned, and never more entities
    than [FIELD_MAP] has keys (31), however many results there are. *)
Theorem added_entities_bounded db h ce r w' l b :
  run_setup db h ce = (r, w') ->
  EvAddEntities l b ∈ trace w' ->
  (length l <= 31)%nat /\
  (exists config ip0 port0 tok tables,
     merged_config h ce = Some config /\
     config !! "enpal_host_ip" = Some ip0 /\
     config !! "enpal_host_port" = Some port0 /\
     config !! "enpal_token" = Some tok /\
     db ip0 port0 tok QueryLast = Ok tables /\
     (length l <= length tables)%nat) /\
  (forall config ip0 port0 tok tables,
     merged_config h ce = Some config ->
     config !! "enpal_host_ip" = Some ip0 ->
     config !! "enpal_host_port" = Some port0 ->
     config !! "enpal_token" = Some tok ->
     db ip0 port0 tok QueryLast = Ok tables ->
     (length l <= length tables)%nat).
Proof.
  intros Hrun Hin.
  destruct (run_setup_registered _ _ _ _ _ _ _ Hrun Hin)
    as (config & ip0 & port0 & tok & tables & w2 & Hm & Hip & Hport & Htok & Hdb & Hd & _).
  apply discover_length in Hd. cbn [length] in Hd.
  split; [|split].
  - pose proof (added_fields_NoDup _ _ _ _ _ _ _ Hrun Hin) as Hnd.
    assert (Hsub : field <$> l ⊆+ (map_to_list FIELD_MAP).*1).
    { apply NoDup_submseteq; [exact Hnd|].
      intros f Hf. apply list_elem_of_fmap in Hf as (e & -> & He).
      destruct (added_entity _ _ _ _ _ _ _ _ Hrun Hin He) as (_ & _ & cfg & Hk & _).
      apply list_elem_of_fmap. exists (field e, cfg). split; [reflexivity|].
      now apply elem_of_map_to_list. }
    apply submseteq_length in Hsub.
    rewrite !length_fmap, length_map_to_list, FIELD_MAP_size in Hsub. exact Hsub.
  - exists config, ip0, port0, tok, tables. repeat (split; [assumption|]). lia.
  - intros config' ip' port' tok' tables' Hm' Hip' Hport' Htok' Hdb'.
    assert (config' = config) as -> by congruence.
    assert (ip' = ip0) as -> by congruence.
    assert (port' = port0) as -> by congruence.
    assert (tok' = tok) as -> by congruence.
    assert (tables' = tables) as -> by congruence.
    lia.
Qed.

Lemma added_entities_bounded_witness :
  (length [EnpalSensor_init "Power.DC.Total" "inverter" "mdi:solar-power"
             "Enpal Solar Production Power" (CStr "192.168.178.20") (CInt 8086)
             (CStr "secret") "power" "W"] <= 31)%nat /\
  (length [EnpalSensor_init "Power.DC.Total" "inverter" "mdi:solar-power"
             "Enpal Solar Production Power" (CStr "192.168.178.20") (CInt 8086)
             (CStr "secret") "power" "W"] <= length sample_tables)%nat.
Proof.
  destruct (added_entities_bounded (db_tables sample_tables) sample_hass
              sample_entry _ _
              [EnpalSensor_init "Power.DC.Total" "inverter" "mdi:solar-power"
                 "Enpal Solar Production Power" (CStr "192.168.178.20") (CInt 8086)
                 (CStr "secret") "power" "W"] true (surjective_pairing _))
    as (H31 & _ & Hres).
  - vm_compute. repeat constructor.
  - split; [exact H31|].
    apply (Hres sample_config (CStr "192.168.178.20") (CInt 8086) (CStr "secret"));
      vm_compute; reflexivity.
Defined.

(** X10.  Discovery fails as a whole: when a run raises (the entry has no
    stored configuration, the query fails, or a result table has no record
    or lacks a tag), the entity registry is as it was, nothing was removed
    and [async_add_entities] was not called. *)
Theorem failed_discovery_touches_nothing db h ce e w' :
  run_setup db h ce = (Raise e, w') ->
  entity_registry (hass w') = entity_registry h /\
  Forall (fun ev => is_remove ev = false /\ is_add ev = false) (trace w').
Proof.
  intros Hrun.
  destruct (data h !! entry_id ce) as [config0|] eqn:Hc.
  2:{ rewrite (run_setup_no_config db h ce Hc) in Hrun. injection Hrun as _ <-.
      split; [reflexivity | constructor]. }
  assert (Hm : merged_config h ce = Some (options ce ∪ config0)).
  { unfold merged_config. rewrite Hc. reflexivity. }
  set (config := options ce ∪ config0) in *.
  destruct (config !! "enpal_host_ip") as [ip0|] eqn:Hip.
  2:{ destruct (run_setup_missing db h ce config Hm (or_introl Hip)) as [msg Hr].
      rewrite Hr in Hrun. discriminate Hrun. }
  destruct (config !! "enpal_host_port") as [port0|] eqn:Hport.
  2:{ destruct (run_setup_missing db h ce config Hm (or_intror (or_introl Hport))) as [msg Hr].
      rewrite Hr in Hrun. discriminate Hrun. }
  destruct (config !! "enpal_token") as [tok|] eqn:Htok.
  2:{ destruct (run_setup_missing db h ce config Hm (or_intror (or_intror Htok))) as [msg Hr].
      rewrite Hr in Hrun. discriminate Hrun. }
  rewrite (run_setup_complete db h ce config ip0 port0 tok Hm Hip Hport Htok) in Hrun.
  cbv zeta in Hrun.
  destruct (db ip0 port0 tok QueryLast) as [tables|e0] eqn:Hdb.
  2:{ injection Hrun as _ <-. split; [reflexivity|]. repeat constructor. }
  destruct (discover config tables ∅ [] _) as [[to_add|e1] w2] eqn:Hd; [discriminate Hrun|].
  injection Hrun as _ <-.
  apply discover_trace in Hd as (Hh & logs & Ht & Hdbg). cbn [hass trace] in Hh, Ht.
  rewrite Hh, Ht. split; [reflexivity|].
  constructor; [split; reflexivity|].
  eapply Forall_impl; [exact Hdbg|].
  intros [[]| | |] Hev; try discriminate Hev; split; reflexivity.
Qed.

Lemma failed_discovery_touches_nothing_witness :
  entity_registry
    (hass (run_setup (fun _ _ _ _ => Ok [ {| records := [] |} ]) sample_hass sample_entry).2)
  = entity_registry sample_hass.
Proof.
  refine (proj1 (failed_discovery_touches_nothing
                   (fun _ _ _ _ => Ok [ {| records := [] |} ]) sample_hass sample_entry
                   (Exn IndexError "list index out of range") _ _)).
  vm_compute. reflexivity.
Defined.

Lemma stored_lookup h ce config0 :
  data h !! entry_id ce = Some config0 ->
  data (stored h ce (options ce ∪ config0)) !! entry_id ce = Some (options ce ∪ config0) /\
  forall id, id <> entry_id ce ->
    data (stored h ce (options ce ∪ config0)) !! id = data h !! id.
Proof.
  intros Hc. unfold stored. cbn [data].
  destruct (bool_decide (options ce ≠ ∅)) eqn:Hopt.
  - split; [apply lookup_insert_eq|]. intros id Hid. now rewrite lookup_insert_ne.
  - apply bool_decide_eq_false in Hopt. apply dec_stable in Hopt.
    rewrite Hopt, (left_id_L ∅ (∪)). split; [exact Hc | reflexivity].
Qed.

Lemma run_setup_data db h ce config r w' :
  merged_config h ce = Some config ->
  run_setup db h ce = (r, w') ->
  data (hass w') = data (stored h ce config).
Proof.
  intros Hm Hrun.
  destruct (config !! "enpal_host_ip") as [ip0|] eqn:Hip.
  2:{ destruct (run_setup_missing db h ce config Hm (or_introl Hip)) as [msg Hr].
      rewrite Hr in Hrun. now injection Hrun as _ <-. }
  destruct (config !! "enpal_host_port") as [port0|] eqn:Hport.
  2:{ destruct (run_setup_missing db h ce config Hm (or_intror (or_introl Hport))) as [msg Hr].
      rewrite Hr in Hrun. now injection Hrun as _ <-. }
  destruct (config !! "enpal_token") as [tok|] eqn:Htok.
  2:{ destruct (run_setup_missing db h ce config Hm (or_intror (or_intror Htok))) as [msg Hr].
      rewrite Hr in Hrun. now injection Hrun as _ <-. }
  rewrite (run_setup_complete db h ce config ip0 port0 tok Hm Hip Hport Htok) in Hrun.
  cbv zeta in Hrun.
  destruct (db ip0 port0 tok QueryLast) as [tables|e0]; [|now injection Hrun as _ <-].
  destruct (discover config tables ∅ [] _) as [[to_add|e1] w2] eqn:Hd.
  - now injection Hrun as _ <-.
  - injection Hrun as _ <-. apply discover_trace in Hd as (Hh & _). now rewrite Hh.
Qed.

(** X11.  The options of the entry are merged into the stored
    configuration dict itself and stay there, however the run ends: a key of
    the options takes the option's value, any other key keeps the stored
    value, and the configurations of other entries are untouched. *)
Theorem options_are_merged_in_place db h ce config0 r w' :
  data h !! entry_id ce = Some config0 ->
  run_setup db h ce = (r, w') ->
  exists config,
    data (hass w') !! entry_id ce = Some config /\
    (forall k v, options ce !! k = Some v -> config !! k = Some v) /\
    (forall k, options ce !! k = None -> config !! k = config0 !! k) /\
    (forall id, id <> entry_id ce -> data (hass w') !! id = data h !! id).
Proof.
  intros Hc Hrun.
  assert (Hm : merged_config h ce = Some (options ce ∪ config0)).
  { unfold merged_config. rewrite Hc. reflexivity. }
  rewrite (run_setup_data db h ce _ r w' Hm Hrun).
  destruct (stored_lookup h ce config0 Hc) as [Hself Hothers].
  exists (options ce ∪ config0). split; [exact Hself|]. split; [|split].
  - intros k v Hk. now apply lookup_union_Some_l.
  - intros k Hk. now apply lookup_union_r.
  - exact Hothers.
Qed.

Lemma options_are_merged_in_place_witness :
  exists config,
    data (hass (run_setup db_empty sample_hass
                  {| entry_id := "entry-1";
                     options := {[ "enpal_host_port" := CInt 9999 ]} |}).2) !! "entry-1"
    = Some config /\
    config !! "enpal_host_port" = Some (CInt 9999) /\
    config !! "enpal_token" = Some (CStr "secret").
Proof.
  destruct (options_are_merged_in_place db_empty sample_hass
              {| entry_id := "entry-1";
                 options := {[ "enpal_host_port" := CInt 9999 ]} |}
              sample_config _ _ eq_refl (surjective_pairing _))
    as (config & Hd & Hopt & Hkeep & _).
  exists config. split; [exact Hd|]. split.
  - apply Hopt. vm_compute. reflexivity.
  - rewrite Hkeep; vm_compute; reflexivity.
Defined.

Lemma shows_state_class dc u v s : shows dc u s -> shows dc u (set_state_class v s).
Proof. destruct s. exact id. Qed.

Lemma shows_attr_put dc u k v s : shows dc u s -> shows dc u (attr_put k v s).
Proof. destruct s. exact id. Qed.

Lemma shows_reset_daily dc u env x s : shows dc u s -> shows dc u (reset_daily env x s).
Proof.
  intros H. unfold reset_daily. destruct (bool_decide _); [|exact H].
  now apply shows_state_class, shows_attr_put.
Qed.

Lemma shows_set_icon dc u (c : bool) icon s :
  shows dc u s -> shows dc u (if c then set_icon icon s else s).
Proof. destruct c; [|exact id]. destruct s. exact id. Qed.

Lemma shows_battery_icons dc u v s : shows dc u s -> shows dc u (battery_icons v s).
Proof.
  intros H. unfold battery_icons. cbv zeta.
  apply shows_set_icon. unfold tier. do 10 apply shows_set_icon. exact H.
Qed.

Lemma succeeded_shows env f s :
  shows (Some (enpal_device_class s)) (Some (sensor_unit s)) (succeeded env f s).
Proof.
  rewrite succeeded_eq.
  assert (H : shows (Some (enpal_device_class s)) (Some (sensor_unit s)) (refreshed env f s)).
  { unfold refreshed. do 2 apply shows_reset_daily. do 3 apply shows_attr_put.
    apply shows_state_class. destruct s. split; reflexivity. }
  destruct (bool_decide _); [now apply shows_battery_icons | exact H].
Qed.

(** X12.  Discovery and update together: after a finished [try] block, an
    entity that discovery registered shows the device class, unit, icon and
    name of the descriptor of its field in [FIELD_MAP], and its state class
    is "total_increasing" exactly when that unit is "kWh" or "Wh". *)
Theorem registered_entity_shows_descriptor db h ce r w' l b e env st :
  run_setup db h ce = (r, w') ->
  EvAddEntities l b ∈ trace w' ->
  e ∈ l ->
  update_try env (start e) = (Ok tt, st) ->
  exists cfg,
    FIELD_MAP !! field e = Some cfg /\
    _attr_device_class (self st) = Some (device_class cfg) /\
    _attr_native_unit_of_measurement (self st) = Some (unit_ cfg) /\
    _attr_icon (self st) = icon cfg /\
    _attr_name (self st) = name cfg /\
    _attr_state_class (self st)
    = Some (if is_energy_unit (unit_ cfg) then "total_increasing" else "measurement").
Proof.
  intros Hrun Hin He Htry.
  destruct (added_entity _ _ _ _ _ _ _ _ Hrun Hin He) as (config & m & cfg & Hk & Hent).
  exists cfg. split; [exact Hk|].
  assert (Hinit : enpal_device_class e = device_class cfg /\ sensor_unit e = unit_ cfg /\
                  _attr_icon e = icon cfg /\ _attr_name e = name cfg).
  { unfold entity_for in Hent.
    destruct (config !! "enpal_host_ip"); [|discriminate].
    destruct (config !! "enpal_host_port"); [|discriminate].
    destruct (config !! "enpal_token"); [|discriminate].
    cbn in Hent. injection Hent as <-. repeat split. }
  destruct Hinit as (Hdc & Hu & Hic & Hnm).
  assert (Hne : field e <> "Percent.Storage.Level").
  { intros Heq. rewrite Heq in Hk. vm_compute in Hk. discriminate Hk. }
  apply update_try_Ok_inv in Htry as (f & _ & ->).
  destruct (succeeded_shows env f e) as [-> ->].
  destruct (succeeded_facts env f e) as (_ & _ & -> & _).
  destruct (succeeded_identity env f e) as [(_ & _ & _ & _ & _ & _ & _ & -> & _) _].
  rewrite succeeded_eq, bool_decide_eq_false_2 by exact Hne.
  destruct (refreshed_facts env f e) as (_ & _ & -> & _).
  rewrite Hdc, Hu, Hic, Hnm. repeat split.
Qed.

Lemma registered_entity_shows_descriptor_witness :
  let e := EnpalSensor_init "Power.DC.Total" "inverter" "mdi:solar-power"
             "Enpal Solar Production Power" (CStr "192.168.178.20") (CInt 8086)
             (CStr "secret") "power" "W" in
  exists cfg,
    FIELD_MAP !! "Power.DC.Total" = Some cfg /\
    _attr_device_class (self (run_update (env_of (db_value (PInt 4200))) e).2)
    = Some (device_class cfg) /\
    _attr_native_unit_of_measurement (self (run_update (env_of (db_value (PInt 4200))) e).2)
    = Some (unit_ cfg).
Proof.
  intros e.
  destruct (registered_entity_shows_descriptor (db_tables sample_tables) sample_hass
              sample_entry _ _ [e] true e (env_of (db_value (PInt 4200)))
              (run_update (env_of (db_value (PInt 4200))) e).2
              (surjective_pairing _))
    as (cfg & Hk & Hdc & Hu & _).
  - vm_compute. repeat constructor.
  - apply list_elem_of_singleton. reflexivity.
  - vm_compute. reflexivity.
  - exists cfg. split; [exact Hk|]. split; [exact Hdc | exact Hu].
Defined.

Lemma filter_none {A} (P : A -> Prop) `{forall x, Decision (P x)} (l : list A) :
  Forall (fun x => ~ P x) l -> filter P l = [].
Proof.
  induction 1 as [|x l Hx _ IH]; [reflexivity|].
  now rewrite filter_cons_False.
Qed.

(** X13.  With a complete configuration, a query that returns, and a first
    record carrying both tags in every table, the run succeeds: it issues
    exactly one query, at the configured connection, and ends by calling
    [async_add_entities] with [update_before_add=True]. *)
Theorem well_formed_results_are_registered db h ce config ip0 port0 tok tables :
  merged_config h ce = Some config ->
  config !! "enpal_host_ip" = Some ip0 ->
  config !! "enpal_host_port" = Some port0 ->
  config !! "enpal_token" = Some tok ->
  db ip0 port0 tok QueryLast = Ok tables ->
  Forall well_formed tables ->
  exists l w',
    run_setup db h ce = (Ok tt, w') /\
    last (trace w') = Some (EvAddEntities l true) /\
    filter (fun ev => is_query ev = true) (trace w') = [EvQuery ip0 port0 tok QueryLast].
Proof.
  intros Hm Hip Hport Htok Hdb Hwf.
  rewrite (run_setup_complete db h ce config ip0 port0 tok Hm Hip Hport Htok).
  cbv zeta. rewrite Hdb.
  destruct (discover_total config tables (ex_intro _ _ Hip) (ex_intro _ _ Hport)
              (ex_intro _ _ Htok) Hwf ∅ []
              {| hass := stored h ce config; trace := [EvQuery ip0 port0 tok QueryLast] |})
    as (l & w2 & Hd).
  rewrite Hd. exists l. eexists. split; [reflexivity|]. cbn [trace].
  apply discover_trace in Hd as (_ & logs & -> & Hdbg). cbn [trace].
  split.
  - now rewrite !app_assoc, last_snoc.
  - cbn [app]. rewrite filter_cons_True by reflexivity. f_equal.
    rewrite !filter_app.
    rewrite (filter_none _ logs), (filter_none _ (removals h ce)); [reflexivity| |].
    + unfold removals. apply Forall_fmap, Forall_forall. intros x _. discriminate.
    + eapply Forall_impl; [exact Hdbg|].
      intros [[]| | |] Hev; try discriminate Hev; discriminate.
Qed.

Lemma well_formed_results_are_registered_witness :
  exists l w',
    run_setup (db_tables sample_tables) sample_hass sample_entry = (Ok tt, w') /\
    last (trace w') = Some (EvAddEntities l true) /\
    filter (fun ev => is_query ev = true) (trace w')
    = [EvQuery (CStr "192.168.178.20") (CInt 8086) (CStr "secret") QueryLast].
Proof.
  apply (well_formed_results_are_registered (db_tables sample_tables) sample_hass
           sample_entry sample_config (CStr "192.168.178.20") (CInt 8086) (CStr "secret")
           sample_tables);
    try (vm_compute; reflexivity).
  repeat constructor; do 4 eexists; repeat split.
Defined.

Lemma discover_raises config tables :
  Exists (fun t => records t = []) tables ->
  forall enc acc w, exists e w',
    discover config tables enc acc w = (Raise e, w') /\
    (exn_cls e = IndexError \/ exn_cls e = KeyError).
Proof.
  induction 1 as [table rest Hrec | table rest _ IH]; intros enc acc w.
  - cbn [discover]. cbv [bind lift index0 getitem]. rewrite Hrec. eauto.
  - cbn [discover]. cbv [bind lift index0 getitem].
    destruct (records table) as [|rec rs]; [eauto|].
    destruct (values_field rec) as [fld|]; [|eauto].
    destruct (values_measurement rec) as [meas|]; [|eauto].
    destruct (decide (fld ∈ enc)); [apply IH|].
    destruct (FIELD_MAP !! fld).
    + destruct (config !! "enpal_host_ip"); [|eauto].
      destruct (config !! "enpal_host_port"); [|eauto].
      destruct (config !! "enpal_token"); [|eauto].
      apply IH.
    + cbv [tell modify]. apply IH.
Qed.

(** X14.  One result table without records is enough to abort the whole
    run: the loop is not guarded, so the run raises ([IndexError], or a
    [KeyError] met earlier) and no entity of any other table is registered. *)
Theorem table_without_records_aborts db h ce config ip0 port0 tok tables :
  merged_config h ce = Some config ->
  config !! "enpal_host_ip" = Some ip0 ->
  config !! "enpal_host_port" = Some port0 ->
  config !! "enpal_token" = Some tok ->
  db ip0 port0 tok QueryLast = Ok tables ->
  Exists (fun t => records t = []) tables ->
  exists e w',
    run_setup db h ce = (Raise e, w') /\
    (exn_cls e = IndexError \/ exn_cls e = KeyError) /\
    Forall (fun ev => is_add ev = false) (trace w') /\
    entity_registry (hass w') = entity_registry h.
Proof.
  intros Hm Hip Hport Htok Hdb Hex.
  rewrite (run_setup_complete db h ce config ip0 port0 tok Hm Hip Hport Htok).
  cbv zeta. rewrite Hdb.
  destruct (discover_raises config tables Hex ∅ []
              {| hass := stored h ce config; trace := [EvQuery ip0 port0 tok QueryLast] |})
    as (e & w2 & Hd & Hcls).
  rewrite Hd. exists e, w2. split; [reflexivity|]. split; [exact Hcls|].
  apply discover_trace in Hd as (-> & logs & -> & Hdbg). cbn [trace hass stored entity_registry].
  split; [|reflexivity].
  constructor; [reflexivity|].
  eapply Forall_impl; [exact Hdbg|].
  intros [[]| | |] Hev; try discriminate Hev; reflexivity.
Qed.

Lemma table_without_records_aborts_witness :
  exists e w',
    run_setup (db_tables (sample_tables ++ [ {| records := [] |} ])) sample_hass sample_entry
    = (Raise e, w') /\
    (exn_cls e = IndexError \/ exn_cls e = KeyError) /\
    Forall (fun ev => is_add ev = false) (trace w') /\
    entity_registry (hass w') = entity_registry sample_hass.
Proof.
  apply (table_without_records_aborts
           (db_tables (sample_tables ++ [ {| records := [] |} ])) sample_hass
           sample_entry sample_config (CStr "192.168.178.20") (CInt 8086) (CStr "secret")
           (sample_tables ++ [ {| records := [] |} ]));
    try (vm_compute; reflexivity).
  apply Exists_app. right. constructor. reflexivity.
Defined.
